(** * WildFire_Analysis: the map client's geometry reducer, the analysis
      client, the session store and the analysis route, embedded in Rocq.

    The TypeScript sources are embedded shallowly:
    - [lib/api]   (analyzeWildfire)             : the analysis client;
    - [lib/store] (useWildfireStore)            : the session store;
    - [components/map-client] (MapClient)       : the geometry reducer and
                                                   the severity tables;
    - [components/analysis-panel.tsx]           : the mock-data handler;
    - [app/api/analyze-wildfire/route.ts]       : the request validation.

    JavaScript numbers are modelled by rationals ([Q]); strings by [string];
    [null]/[undefined] by [None]; a thrown exception by [Throw]. *)

From Equations Require Import Equations.
From Stdlib Require Import List Arith ZArith QArith Lia String Ascii Bool.
From Stdlib Require Import DecimalString.
Import ListNotations.

Local Open Scope nat_scope.
Local Open Scope string_scope.
Local Open Scope list_scope.

(* ===================================================================== *)
(** ** JavaScript values and completions                                  *)
(* ===================================================================== *)

Definition number := Q.

(** What a [throw] carries: an instance of [Error] with its [message], or
    some other value (for which [error instanceof Error] is false). *)
Inductive Thrown : Type :=
| ErrorObject (message : string)
| NonError.

(** The completion of a call that may throw (or of an awaited promise that
    may reject). *)
Inductive Result (A : Type) : Type :=
| Ok (a : A)
| Throw (e : Thrown).
Arguments Ok {A} a.
Arguments Throw {A} e.

Definition bind {A B : Type} (r : Result A) (k : A -> Result B) : Result B :=
  match r with
  | Ok a => k a
  | Throw e => Throw e
  end.

Notation "x <- r ;; k" := (bind r (fun x => k))
  (at level 61, r at next level, right associativity).

(** [xs.forEach(body)] where [body] updates a piece of state and may throw:
    the elements are visited in order and an exception ends the visit. *)
Fixpoint forEach {A S : Type} (xs : list A) (body : A -> S -> Result S) (s : S)
  : Result S :=
  match xs with
  | [] => Ok s
  | x :: rest => s' <- body x s ;; forEach rest body s'
  end.

(* ===================================================================== *)
(** ** GeoJSON, as the map client reads it                                *)
(* ===================================================================== *)

(** [GeoJSON.Position = number[]]; element 0 is the longitude and element 1
    the latitude. *)
Definition Position := list number.

#[warnings="-register-all"]
Inductive Geometry : Type :=
| Point (coordinates : Position)
| MultiPoint (coordinates : list Position)
| LineString (coordinates : list Position)
| MultiLineString (coordinates : list (list Position))
| Polygon (coordinates : list (list Position))
| MultiPolygon (coordinates : list (list (list Position)))
| GeometryCollection (geometries : list Geometry).

(** The two entries of a feature's property bag that the client reads. *)
Record Properties : Type := mkProperties {
  severity : option number;
  area : option number
}.

Record Feature : Type := mkFeature {
  geometry : option Geometry;               (* [null] allowed *)
  feature_properties : option Properties    (* [null] allowed *)
}.

(** The value held in [burnSeverityPolygons] when it is not [null],
    discriminated by its [type] member. *)
Inductive GeoJSON : Type :=
| FeatureCollection (features : list Feature)   (* type === 'FeatureCollection' *)
| AFeature (feature : Feature)                  (* type === 'Feature' *)
| BareGeometry (g : Geometry).                  (* any other [type] *)

(** [interface BurnSeverityPoint]: [latlng] is [latitude, longitude].  An
    index past the end of a position reads [undefined], here [None]. *)
Record BurnSeverityPoint : Type := mkBurnSeverityPoint {
  latlng : option number * option number;
  properties : Properties
}.

(* ===================================================================== *)
(** ** The geometry reducer ([extractPointsFromPolygons])                 *)
(* ===================================================================== *)

(** [feature.properties?.severity], [feature.properties?.area]. *)
Definition readProperties (props : option Properties) : Properties :=
  {| severity := match props with Some p => severity p | None => None end;
     area := match props with Some p => area p | None => None end |}.

(** The object pushed for one coordinate:
    [{ latlng: [coord[1], coord[0]], properties: {...} }]. *)
Definition pointOf (coord : Position) (props : option Properties)
  : BurnSeverityPoint :=
  {| latlng := (nth_error coord 1, nth_error coord 0);
     properties := readProperties props |}.

(** [Math.max(1, Math.floor(ring.length / 10))]. *)
Definition stride (ringLength : nat) : nat := Nat.max 1 (ringLength / 10).

Definition undefinedCoord : Thrown :=
  ErrorObject "Cannot read properties of undefined (reading '1')".

(** [for (let i = 0; i < ring.length; i += Math.max(1, Math.floor(ring.length / 10)))
      { const coord = ring[i]; points.push({...}) }]
    started at index [i] with the array [points] built so far. *)
Equations? sampleRing (ring : list Position) (props : option Properties)
  (i : nat) (points : list BurnSeverityPoint)
  : Result (list BurnSeverityPoint) by wf (List.length ring - i) lt :=
  sampleRing ring props i points with le_lt_dec (List.length ring) i := {
    | left _ => Ok points
    | right _ with nth_error ring i := {
        | None => Throw undefinedCoord
        | Some coord =>
            sampleRing ring props (i + stride (List.length ring))
                       (points ++ [pointOf coord props]) } }.
Proof. unfold stride. lia. Qed.

(** [processFeature], with the shared array [points] passed through. *)
Definition processFeature (feature : Feature) (points : list BurnSeverityPoint)
  : Result (list BurnSeverityPoint) :=
  match geometry feature with
  | None => Ok points
  | Some (Point coordinates) =>
      Ok (points ++ [pointOf coordinates (feature_properties feature)])
  | Some (Polygon coordinates) =>
      forEach coordinates
        (fun ring pts => sampleRing ring (feature_properties feature) 0 pts)
        points
  | Some (MultiPolygon coordinates) =>
      forEach coordinates
        (fun polygon pts =>
           forEach polygon
             (fun ring pts' => sampleRing ring (feature_properties feature) 0 pts')
             pts)
        points
  | Some _ => Ok points
  end.

Definition extractPointsFromPolygons (burnSeverityPolygons : option GeoJSON)
  : Result (list BurnSeverityPoint) :=
  match burnSeverityPolygons with
  | None => Ok []
  | Some (FeatureCollection features) => forEach features processFeature []
  | Some (AFeature feature) => processFeature feature []
  | Some (BareGeometry _) => Ok []
  end.

(** The sampling rule in the specification's words: indices
    [0, stride, 2*stride, ...] below the ring length, [ceil (N / stride)] of
    them. *)
Definition ceilDiv (n d : nat) : nat := (n + d - 1) / d.

Definition sampleCount (ringLength : nat) : nat :=
  ceilDiv ringLength (stride ringLength).

Definition sampleIndices (ringLength : nat) : list nat :=
  map (fun k => k * stride ringLength) (seq 0 (sampleCount ringLength)).

Definition ringSamples (props : option Properties) (ring : list Position)
  : list BurnSeverityPoint :=
  map (fun i => pointOf (nth i ring []) props) (sampleIndices (List.length ring)).

(** What one feature contributes, and the whole reduction, in the
    specification's words: a Point gives one display point; a Polygon the
    samples of each of its rings; a MultiPolygon those of every ring of every
    polygon; anything else nothing. *)
Definition featurePoints (feature : Feature) : list BurnSeverityPoint :=
  let props := feature_properties feature in
  match geometry feature with
  | Some (Point coordinates) => [pointOf coordinates props]
  | Some (Polygon rings) => flat_map (ringSamples props) rings
  | Some (MultiPolygon polygons) => flat_map (flat_map (ringSamples props)) polygons
  | _ => []
  end.

Definition reduce (input : option GeoJSON) : list BurnSeverityPoint :=
  match input with
  | Some (FeatureCollection features) => flat_map featurePoints features
  | Some (AFeature feature) => featurePoints feature
  | _ => []
  end.

(** The positions of the geometries the reducer reads. *)
Definition geometryPositions (g : Geometry) : list Position :=
  match g with
  | Point coordinates => [coordinates]
  | Polygon rings => List.concat rings
  | MultiPolygon polygons => List.concat (List.concat polygons)
  | _ => []
  end.

Definition featurePositions (feature : Feature) : list Position :=
  match geometry feature with
  | Some g => geometryPositions g
  | None => []
  end.

Definition inputPositions (input : option GeoJSON) : list Position :=
  match input with
  | Some (FeatureCollection features) => flat_map featurePositions features
  | Some (AFeature feature) => featurePositions feature
  | _ => []
  end.

(** A feature the reducer has a case for. *)
Definition supported (feature : Feature) : bool :=
  match geometry feature with
  | Some (Point _) | Some (Polygon _) | Some (MultiPolygon _) => true
  | _ => false
  end.

(* ===================================================================== *)
(** ** Severity tables                                                    *)
(* ===================================================================== *)

(** [switch (severity)] compares with [===]. *)
Definition getBurnSeverityColor (severity : number) : string :=
  if Qeq_bool severity 1 then "#69B34C"
  else if Qeq_bool severity 2 then "#FAB733"
  else if Qeq_bool severity 3 then "#FF8E15"
  else if Qeq_bool severity 4 then "#FF4E11"
  else if Qeq_bool severity 5 then "#FF0D0D"
  else "#CCCCCC".

Definition getSeverityLabel (severity : number) : string :=
  if Qeq_bool severity 1 then "Low"
  else if Qeq_bool severity 2 then "Moderate"
  else if Qeq_bool severity 3 then "High"
  else if Qeq_bool severity 4 then "Very High"
  else if Qeq_bool severity 5 then "Extreme"
  else "Unknown".

(* ===================================================================== *)
(** ** JSON values                                                        *)
(* ===================================================================== *)

(** What [JSON.parse] / [response.json()] can return. *)
#[warnings="-register-all"]
Inductive Json : Type :=
| JNull
| JBool (b : bool)
| JNumber (n : number)
| JString (s : string)
| JArray (items : list Json)
| JObject (members : list (string * Json)).

(** The binding of [key] among an object's members; as in [JSON.parse], a
    later member of the same name replaces an earlier one. *)
Fixpoint lookupMember (key : string) (members : list (string * Json))
  : option Json :=
  match members with
  | [] => None
  | (k, v) :: rest =>
      match lookupMember key rest with
      | Some v' => Some v'
      | None => if String.eqb k key then Some v else None
      end
  end.

(** [v.key] for a value [v] that is not [null]: [undefined] ([None]) unless
    [v] is an object with that member.  (None of the keys read by the
    program is a built-in member of strings or arrays.) *)
Definition member (key : string) (v : Json) : option Json :=
  match v with
  | JObject members => lookupMember key members
  | _ => None
  end.

(** JavaScript truthiness of a JSON value. *)
Definition truthy (v : Json) : bool :=
  match v with
  | JNull => false
  | JBool b => b
  | JNumber n => negb (Qeq_bool n 0)
  | JString s => negb (String.eqb s "")
  | JArray _ => true
  | JObject _ => true
  end.

(** Truthiness of a value that may be [undefined]. *)
Definition truthy_opt (v : option Json) : bool :=
  match v with
  | Some v => truthy v
  | None => false
  end.

Section Conversions.

(** [Number::toString], the ECMAScript rendering of a number. *)
Variable Number_toString : number -> string.

(** [String(v)], the conversion [new Error(v)] applies to its argument. *)
Fixpoint toString (v : Json) : string :=
  match v with
  | JNull => "null"
  | JBool true => "true"
  | JBool false => "false"
  | JNumber n => Number_toString n
  | JString s => s
  | JArray items =>
      (fix join (l : list Json) : string :=
         match l with
         | [] => ""
         | x :: rest =>
             ((match x with JNull => "" | _ => toString x end)
              ++ (match rest with [] => "" | _ :: _ => "," ++ join rest end))%string
         end) items
  | JObject _ => "[object Object]"
  end.

End Conversions.

(** Decimal rendering of a non-negative integer (an HTTP status code). *)
Definition decimal (n : N) : string := NilZero.string_of_uint (N.to_uint n).

(* ===================================================================== *)
(** ** Shared interfaces ([lib/api], [lib/store])                         *)
(* ===================================================================== *)

Record Location : Type := mkLocation {
  latitude : number;
  longitude : number
}.

Record AnalysisParams : Type := mkAnalysisParams {
  params_latitude : number;
  params_longitude : number;
  params_preFireDate : string;
  params_postFireDate : string;
  params_bufferKm : option number
}.

Record BurnSeverityStats : Type := mkBurnSeverityStats {
  low : number; moderate : number; high : number;
  veryHigh : number; extreme : number
}.

Record NbrStats : Type := mkNbrStats {
  preFireAvg : number; postFireAvg : number;
  dNBRAvg : number; dNBRMax : number
}.

Record Images : Type := mkImages {
  preFireImage : string; postFireImage : string;
  preFireNBR : string; postFireNBR : string;
  dNBR : string; image_burnSeverity : string; burnSeverityLegend : string
}.

Record AnalysisResults : Type := mkAnalysisResults {
  location : Location;
  preFireDate : string;
  postFireDate : string;
  dataSource : string;
  totalBurnedArea : number;
  burnSeverityStats : BurnSeverityStats;
  nbrStats : NbrStats;
  images : Images;
  results_burnSeverityPolygons : option GeoJSON;   (* burnSeverityPolygons?: any *)
  results_status : option string;
  timestamp : option string
}.

(* ===================================================================== *)
(** ** The analysis client ([analyzeWildfire])                            *)
(* ===================================================================== *)

(** What [fetch] resolves to.  [response.ok] selects the constructor; the
    body of a successful response is read at the declared type
    [AnalysisResults], the body of any other response as an arbitrary JSON
    value.  [json] is the completion of [await response.json()], the first
    read of the body; [text] is what [await response.text()] would complete
    with on the body while nothing has read it. *)
Inductive Response : Type :=
| OkResponse (json : Result AnalysisResults)
| ErrorResponse (status : N) (statusText : string)
                (json : Result Json) (text : Result string).

(** [await response.text()] once [response.json()] has read the body.  The
    body of a response is a stream that can be read once: [json()] reads it
    to its end before it parses, so after it (parsed or not) the body is
    used and [text()] rejects, whatever the body held. *)
Definition textOfUsedBody (text : Result string) : Result string :=
  Throw (ErrorObject
    "Failed to execute 'text' on 'Response': body stream already read").

Section Client.

Variable Number_toString : number -> string.

(** The endpoint as the client sees it: the completion of
    [await fetch("/api/analyze-wildfire", {method: "POST", body: ...})]. *)
Variable fetch : AnalysisParams -> Result Response.

(** The message computed in the [if (!response.ok)] block. *)
Definition errorMessageOf (status : N) (statusText : string)
  (json : Result Json) (text : Result string) : string :=
  let errorMessage :=
    ("Server error: " ++ decimal status ++ " " ++ statusText)%string in
  match json with
  | Ok errorData =>
      if truthy errorData && truthy_opt (member "error" errorData) then
        match member "error" errorData with
        | Some e => toString Number_toString e
        | None => errorMessage
        end
      else errorMessage
  | Throw parseError =>
      match textOfUsedBody text with
      | Ok textResponse =>
          ("Server error: " ++ substring 0 200 textResponse ++ "...")%string
      | Throw textError => errorMessage
      end
  end.

Definition analyzeWildfire (params : AnalysisParams) : Result AnalysisResults :=
  match fetch params with
  | Throw error => Throw error
  | Ok (ErrorResponse status statusText json text) =>
      Throw (ErrorObject (errorMessageOf status statusText json text))
  | Ok (OkResponse json) =>
      match json with
      | Ok results => Ok results
      | Throw error => Throw error
      end
  end.

End Client.

(* ===================================================================== *)
(** ** The session store ([useWildfireStore])                             *)
(* ===================================================================== *)

Record VisibleLayers : Type := mkVisibleLayers {
  burnSeverity : bool
}.

Record WildfireStore : Type := mkWildfireStore {
  selectedLocation : option Location;
  analysisResults : option AnalysisResults;
  burnSeverityPolygons : option GeoJSON;
  isLoading : bool;
  error : option string;
  visibleLayers : VisibleLayers
}.

(** The state [create] starts from. *)
Definition initialStore : WildfireStore :=
  {| selectedLocation := None;
     analysisResults := None;
     burnSeverityPolygons := None;
     isLoading := false;
     error := None;
     visibleLayers := {| burnSeverity := true |} |}.

(** A session: the store, and the requests that have been handed to the
    analysis client so far (oldest first). *)
Record Session : Type := mkSession {
  store : WildfireStore;
  requests : list AnalysisParams
}.

Definition initialSession : Session :=
  {| store := initialStore; requests := [] |}.

(** zustand's [set]: the store is replaced by an update of the current one. *)
Definition set (update : WildfireStore -> WildfireStore) (w : Session) : Session :=
  {| store := update (store w); requests := requests w |}.

Definition setSelectedLocation (location : Location) : Session -> Session :=
  set (fun state =>
    {| selectedLocation := Some location;
       analysisResults := None;
       burnSeverityPolygons := None;
       isLoading := isLoading state;
       error := None;
       visibleLayers := visibleLayers state |}).

(** [visibleLayers] has the single key [burnSeverity]. *)
Definition toggleLayerVisibility : Session -> Session :=
  set (fun state =>
    {| selectedLocation := selectedLocation state;
       analysisResults := analysisResults state;
       burnSeverityPolygons := burnSeverityPolygons state;
       isLoading := isLoading state;
       error := error state;
       visibleLayers :=
         {| burnSeverity := negb (burnSeverity (visibleLayers state)) |} |}).

Definition clearAnalysis : Session -> Session :=
  set (fun state =>
    {| selectedLocation := selectedLocation state;
       analysisResults := None;
       burnSeverityPolygons := None;
       isLoading := isLoading state;
       error := None;
       visibleLayers := visibleLayers state |}).

(** [error instanceof Error ? error.message : "An unknown error occurred"]. *)
Definition messageOf (error : Thrown) : string :=
  match error with
  | ErrorObject message => message
  | NonError => "An unknown error occurred"
  end.

Section RunAnalysis.

Variable Number_toString : number -> string.
Variable fetch : AnalysisParams -> Result Response.

(** [runAnalysis] up to its [await]: the loading flag is raised, the error
    cleared, and the request handed to the client. *)
Definition runAnalysis_begin (params : AnalysisParams) (w : Session) : Session :=
  let w := set (fun state =>
    {| selectedLocation := selectedLocation state;
       analysisResults := analysisResults state;
       burnSeverityPolygons := burnSeverityPolygons state;
       isLoading := true;
       error := None;
       visibleLayers := visibleLayers state |}) w in
  {| store := store w; requests := requests w ++ [params] |}.

(** [runAnalysis] after its [await], on the client's completion. *)
Definition runAnalysis_settle (outcome : Result AnalysisResults)
  : Session -> Session :=
  match outcome with
  | Ok results =>
      (* results.burnSeverityPolygons || null : a GeoJSON object is truthy *)
      let geojsonData := results_burnSeverityPolygons results in
      set (fun state =>
        {| selectedLocation := selectedLocation state;
           analysisResults := Some results;
           burnSeverityPolygons := geojsonData;
           isLoading := false;
           error := error state;
           visibleLayers := visibleLayers state |})
  | Throw error =>
      set (fun state =>
        {| selectedLocation := selectedLocation state;
           analysisResults := analysisResults state;
           burnSeverityPolygons := burnSeverityPolygons state;
           isLoading := false;
           error := Some (messageOf error);
           visibleLayers := visibleLayers state |})
  end.

(** A call of [runAnalysis] that nothing else interleaves with. *)
Definition runAnalysis (params : AnalysisParams) (w : Session) : Session :=
  runAnalysis_settle (analyzeWildfire Number_toString fetch params)
                     (runAnalysis_begin params w).

End RunAnalysis.

(** The store has no status member.  The specification's four-valued status
    is read off the three members the views render from: the loading overlay
    is shown while [isLoading] (Running); otherwise the error alert is shown
    when [error] is set (Failed, with any earlier result still displayed
    below it); otherwise the result tabs are shown when [analysisResults] is
    set (Succeeded); otherwise nothing is (Idle). *)
Inductive Status : Type := Idle | Running | Succeeded | Failed.

Definition statusOf (state : WildfireStore) : Status :=
  if isLoading state then Running
  else match error state with
       | Some _ => Failed
       | None =>
           match analysisResults state with
           | Some _ => Succeeded
           | None => Idle
           end
       end.

(* ===================================================================== *)
(** ** The analysis panel's mock-data handler ([handleUseMockData])       *)
(* ===================================================================== *)

Section AnalysisPanel.

(** [getMockAnalysisResults] is imported from [@/lib/mock]; only its use
    is known here. *)
Variable getMockAnalysisResults : AnalysisParams -> AnalysisResults.

(** The panel's two date inputs are component state. *)
Definition handleUseMockData (preFireDate postFireDate : string) (w : Session)
  : Session :=
  match selectedLocation (store w) with
  | None => w                                   (* if (!selectedLocation) return *)
  | Some selected =>
      let mockResults :=
        getMockAnalysisResults
          {| params_latitude := latitude selected;
             params_longitude := longitude selected;
             params_preFireDate := preFireDate;
             params_postFireDate := postFireDate;
             params_bufferKm := None |} in
      set (fun state =>
        {| selectedLocation := selectedLocation state;
           analysisResults := Some mockResults;
           burnSeverityPolygons := results_burnSeverityPolygons mockResults;
           isLoading := false;
           error := None;
           visibleLayers := visibleLayers state |}) w
  end.

End AnalysisPanel.

(* ===================================================================== *)
(** ** The analysis route ([POST /api/analyze-wildfire])                  *)
(* ===================================================================== *)

(** [NextResponse.json(body, { status })]. *)
Record HttpResponse : Type := mkHttpResponse {
  http_status : N;
  http_body : Json
}.

(** The variables bound by
    [const { latitude, longitude, preFireDate, postFireDate, bufferKm = 5 } = body]. *)
Record RequestFields : Type := mkRequestFields {
  field_latitude : option Json;
  field_longitude : option Json;
  field_preFireDate : option Json;
  field_postFireDate : option Json;
  field_bufferKm : Json
}.

(** Destructuring throws on [null] and reads [undefined] for members that a
    value does not have. *)
Definition destructure (body : Json) : Result RequestFields :=
  match body with
  | JNull =>
      Throw (ErrorObject
        "Cannot destructure property 'latitude' of 'body' as it is null.")
  | _ =>
      Ok {| field_latitude := member "latitude" body;
            field_longitude := member "longitude" body;
            field_preFireDate := member "preFireDate" body;
            field_postFireDate := member "postFireDate" body;
            field_bufferKm :=
              match member "bufferKm" body with
              | Some v => v
              | None => JNumber 5%Q
              end |}
  end.

Definition errorBody (message : string) : Json :=
  JObject [("error", JString message)].

Section Route.

(** The rest of the handler once the input is accepted (locating and
    running the Python script, reading and returning its results). *)
Variable analyse : RequestFields -> Result HttpResponse.

(** [POST], on the completion of [await request.json()]. *)
Definition POST (requestJson : Result Json) : HttpResponse :=
  let handled :=
    body <- requestJson ;;
    fields <- destructure body ;;
    if negb (truthy_opt (field_latitude fields))
       || negb (truthy_opt (field_longitude fields))
       || negb (truthy_opt (field_preFireDate fields))
       || negb (truthy_opt (field_postFireDate fields))
    then Ok {| http_status := 400%N;
               http_body := errorBody "Missing required parameters" |}
    else analyse fields in
  match handled with
  | Ok response => response
  | Throw error =>
      {| http_status := 500%N; http_body := errorBody (messageOf error) |}
  end.

End Route.

(* ===================================================================== *)
(** ** Fixtures                                                           *)
(* ===================================================================== *)

(** [mockAnalysisResults] of [lib/mock-data.ts]. *)
Definition mockAnalysisResults : AnalysisResults :=
  {| location := {| latitude := 37.7749%Q; longitude := (-122.4194)%Q |};
     preFireDate := "2023-06-01";
     postFireDate := "2023-08-01";
     dataSource := "Sentinel-2";
     totalBurnedArea := 42.75%Q;
     burnSeverityStats :=
       {| low := 12.5%Q; moderate := 15.3%Q; high := 8.7%Q;
          veryHigh := 4.2%Q; extreme := 2.05%Q |};
     nbrStats :=
       {| preFireAvg := 0.412%Q; postFireAvg := 0.187%Q;
          dNBRAvg := 0.225%Q; dNBRMax := 0.687%Q |};
     images :=
       {| preFireImage := "/placeholder.svg?height=400&width=600";
          postFireImage := "/placeholder.svg?height=400&width=600";
          preFireNBR := "/placeholder.svg?height=400&width=600";
          postFireNBR := "/placeholder.svg?height=400&width=600";
          dNBR := "/placeholder.svg?height=400&width=600";
          image_burnSeverity := "/placeholder.svg?height=400&width=600";
          burnSeverityLegend := "/placeholder.svg?height=100&width=400" |};
     results_burnSeverityPolygons := None;
     results_status := None;
     timestamp := None |}.

(** The map's default centre, and a request for it. *)
Definition defaultCentre : Location :=
  {| latitude := 37.7749%Q; longitude := (-122.4194)%Q |}.

Definition exampleParams : AnalysisParams :=
  {| params_latitude := 37.7749%Q;
     params_longitude := (-122.4194)%Q;
     params_preFireDate := "2023-06-01";
     params_postFireDate := "2023-08-01";
     params_bufferKm := None |}.

(** A session that holds a successful result for the default centre. *)
Definition succeededSession : Session :=
  {| store :=
       {| selectedLocation := Some defaultCentre;
          analysisResults := Some mockAnalysisResults;
          burnSeverityPolygons := None;
          isLoading := false;
          error := None;
          visibleLayers := {| burnSeverity := true |} |};
     requests := [exampleParams] |}.

(** A session with an analysis in flight. *)
Definition runningSession : Session :=
  runAnalysis_begin exampleParams
    (setSelectedLocation defaultCentre initialSession).

(** Endpoints: one that cannot be reached, one that answers 500 with an
    empty JSON object. *)
Definition unreachable (_ : AnalysisParams) : Result Response :=
  Throw (ErrorObject "timeout").


(** One that answers 400 the way the route does. *)
Definition answers400 (_ : AnalysisParams) : Result Response :=
  Ok (ErrorResponse 400%N "Bad Request"
        (Ok (JObject [("error", JString "Missing required parameters")]))
        (Throw (ErrorObject "body stream already read"))).

(** The route's answer to a request it does not accept. *)
Definition missingParameters : HttpResponse :=
  {| http_status := 400%N;
     http_body := JObject [("error", JString "Missing required parameters")] |}.

(** A number rendering for bodies in which no number is rendered. *)
Definition noNumber (_ : number) : string := "".

(** Request bodies for the route: with latitude 0, and with no latitude. *)
Definition bodyLatitudeZero : Json :=
  JObject [ ("latitude", JNumber 0%Q);
            ("longitude", JNumber (-122.4194)%Q);
            ("preFireDate", JString "2023-06-01");
            ("postFireDate", JString "2023-08-01") ].

Definition bodyLongitudeZero : Json :=
  JObject [ ("latitude", JNumber 37.7749%Q);
            ("longitude", JNumber 0%Q);
            ("preFireDate", JString "2023-06-01");
            ("postFireDate", JString "2023-08-01") ].

Definition bodyNoLatitude : Json :=
  JObject [ ("longitude", JNumber (-122.4194)%Q);
            ("preFireDate", JString "2023-06-01");
            ("postFireDate", JString "2023-08-01") ].

(* ===================================================================== *)
(** ** The map client's markers and click handler                         *)
(* ===================================================================== *)

(** [severityClasses] of [BurnSeverityLegend]: label and colour, in the
    order drawn. *)
Definition severityClasses : list (string * string) :=
  [ ("Low", "#69B34C");
    ("Moderate", "#FAB733");
    ("High", "#FF8E15");
    ("Very High", "#FF4E11");
    ("Extreme", "#FF0D0D") ].

(** What one [CircleMarker] is drawn from. *)
Record Marker : Type := mkMarker {
  center : option number * option number;
  fillColor : string;
  color : string;
  popupLabel : string;
  popupArea : option number        (* the "Area:" line, when shown *)
}.

(** [point.properties?.severity || 0]: [undefined] and [0] both give [0]. *)
Definition markerSeverity (point : BurnSeverityPoint) : number :=
  match severity (properties point) with
  | Some s => if Qeq_bool s 0 then 0%Q else s
  | None => 0%Q
  end.

Definition markerOf (point : BurnSeverityPoint) : Marker :=
  {| center := latlng point;
     fillColor := getBurnSeverityColor (markerSeverity point);
     color := getBurnSeverityColor (markerSeverity point);
     popupLabel := getSeverityLabel (markerSeverity point);
     popupArea :=
       match area (properties point) with       (* point.properties?.area && ... *)
       | Some a => if Qeq_bool a 0 then None else Some a
       | None => None
       end |}.

(** The markers of one render of [MapClient]:
    [burnSeverityPoints = burnSeverityPolygons ? extractPointsFromPolygons() : []]
    and then [visibleLayers.burnSeverity && burnSeverityPoints.map(...)]. *)
Definition renderedMarkers (state : WildfireStore) : Result (list Marker) :=
  burnSeverityPoints <-
    match burnSeverityPolygons state with
    | Some _ => extractPointsFromPolygons (burnSeverityPolygons state)
    | None => Ok []
    end ;;
  Ok (if burnSeverity (visibleLayers state)
      then map markerOf burnSeverityPoints
      else []).

(** [e.latlng] of a Leaflet mouse event. *)
Record LatLng : Type := mkLatLng {
  lat : number;
  lng : number
}.

(** [handleClick] of [MapClickHandler]. *)
Definition handleClick (latlng : LatLng) (w : Session) : Session :=
  if isLoading (store w) then w                         (* if (isLoading) return *)
  else setSelectedLocation
         {| latitude := lat latlng; longitude := lng latlng |} w.

(* ===================================================================== *)
(** ** The analysis panel's run handler and its effect                    *)
(* ===================================================================== *)

(** The request the panel builds from a location and its two date inputs. *)
Definition panelParams (selected : Location) (preFire postFire : string)
  : AnalysisParams :=
  {| params_latitude := latitude selected;
     params_longitude := longitude selected;
     params_preFireDate := preFire;
     params_postFireDate := postFire;
     params_bufferKm := None |}.

Section PanelRun.

Variable Number_toString : number -> string.
Variable fetch : AnalysisParams -> Result Response.

(** [handleRunAnalysis], with the call of [runAnalysis] run to completion. *)
Definition handleRunAnalysis (preFire postFire : string) (w : Session)
  : Session :=
  match selectedLocation (store w) with
  | None => w                                     (* if (!selectedLocation) return *)
  | Some selected =>
      runAnalysis Number_toString fetch (panelParams selected preFire postFire) w
  end.

(** The body of the effect that depends on [selectedLocation]:
    [if (selectedLocation && !isLoading && !analysisResults) handleRunAnalysis()]. *)
Definition autoRunEffect (preFire postFire : string) (w : Session) : Session :=
  match selectedLocation (store w), isLoading (store w), analysisResults (store w) with
  | Some _, false, None => handleRunAnalysis preFire postFire w
  | _, _, _ => w
  end.

End PanelRun.

(* ===================================================================== *)
(** ** Sequences of store operations                                      *)
(* ===================================================================== *)

(** The operations that write the store: the store's own actions, the two
    halves of [runAnalysis], and the panel's mock-data handler. *)
Inductive Action : Type :=
| SelectLocation (location : Location)
| ToggleLayer
| ClearAnalysis
| BeginAnalysis (params : AnalysisParams)
| SettleAnalysis (outcome : Result AnalysisResults)
| UseMockData (preFire postFire : string).

Section Actions.

Variable getMockAnalysisResults : AnalysisParams -> AnalysisResults.

Definition perform (w : Session) (a : Action) : Session :=
  match a with
  | SelectLocation location => setSelectedLocation location w
  | ToggleLayer => toggleLayerVisibility w
  | ClearAnalysis => clearAnalysis w
  | BeginAnalysis params => runAnalysis_begin params w
  | SettleAnalysis outcome => runAnalysis_settle outcome w
  | UseMockData preFire postFire =>
      handleUseMockData getMockAnalysisResults preFire postFire w
  end.

Definition performAll (actions : list Action) (w : Session) : Session :=
  fold_left perform actions w.

End Actions.

(** The two relations the store keeps between its members. *)
Definition polygonsFollowResults (state : WildfireStore) : Prop :=
  burnSeverityPolygons state
  = match analysisResults state with
    | Some results => results_burnSeverityPolygons results
    | None => None
    end.

Definition noErrorWhileLoading (state : WildfireStore) : Prop :=
  isLoading state = true -> error state = None.

(* ===================================================================== *)
(** ** The request body, and the rest of the route                        *)
(* ===================================================================== *)

(** The value [request.json()] yields on the server for the body
    [JSON.stringify(params)] sent by the client: the members in declaration
    order, [bufferKm] left out when it is [undefined]. *)
Definition requestBody (params : AnalysisParams) : Json :=
  JObject
    ([ ("latitude", JNumber (params_latitude params));
       ("longitude", JNumber (params_longitude params));
       ("preFireDate", JString (params_preFireDate params));
       ("postFireDate", JString (params_postFireDate params)) ]
     ++ match params_bufferKm params with
        | Some b => [ ("bufferKm", JNumber b) ]
        | None => []
        end).

(** What the route asks of the machine it runs on. *)
Record Host : Type := mkHost {
  cwd : string;                                   (* process.cwd() *)
  path_join : string -> string -> string;         (* path.join *)
  existsSync : string -> bool;                    (* fs.existsSync, on entry *)
  execAsync : string -> Result unit;              (* running a command *)
  existsSync_afterwards : string -> bool;         (* fs.existsSync, after the command *)
  readFileSync : string -> Result string;
  JSON_parse : string -> Result Json;
  publishImages : Json -> Result Json;            (* the [if (results.images)] block *)
  String_of_nonError : string                     (* String(e) for a thrown non-Error *)
}.

Definition doubleQuote : string := String "034"%char EmptyString.

Section RunScript.

Variable Number_toString : number -> string.
Variable host : Host.

(** [`${v}`] for a destructured variable. *)
Definition interpolate (v : option Json) : string :=
  match v with
  | Some v => toString Number_toString v
  | None => "undefined"
  end.

Definition scriptsDir : string := path_join host (cwd host) "scripts".
Definition scriptPath : string := path_join host scriptsDir "args.py".
Definition resultsPath : string := path_join host scriptsDir "results.json".

Definition command (fields : RequestFields) : string :=
  ("python " ++ doubleQuote ++ scriptPath ++ doubleQuote
   ++ " --latitude " ++ interpolate (field_latitude fields)
   ++ " --longitude " ++ interpolate (field_longitude fields)
   ++ " --pre-fire-date " ++ interpolate (field_preFireDate fields)
   ++ " --post-fire-date " ++ interpolate (field_postFireDate fields)
   ++ " --buffer " ++ toString Number_toString (field_bufferKm fields)
   ++ " --output-dir " ++ doubleQuote ++ scriptsDir ++ doubleQuote)%string.

(** [execError instanceof Error ? execError.message : String(execError)]. *)
Definition describe (execError : Thrown) : string :=
  match execError with
  | ErrorObject message => message
  | NonError => String_of_nonError host
  end.

(** The handler from the script check to its last [return]. *)
Definition runScript (fields : RequestFields) : Result HttpResponse :=
  if negb (existsSync host scriptPath) then
    Ok {| http_status := 500%N;
          http_body :=
            errorBody ("Python script not found at " ++ scriptPath
                       ++ ". Please make sure args.py is in the scripts directory.")%string |}
  else
    let attempt :=
      _ <- execAsync host (command fields) ;;
      if negb (existsSync_afterwards host resultsPath) then
        Ok {| http_status := 500%N;
              http_body :=
                errorBody "Analysis failed to produce results. The Python script did not generate a results.json file." |}
      else
        resultsData <- readFileSync host resultsPath ;;
        results <- JSON_parse host resultsData ;;
        results <- publishImages host results ;;
        Ok {| http_status := 200%N; http_body := results |} in
    match attempt with
    | Ok response => Ok response
    | Throw execError =>
        Ok {| http_status := 500%N;
              http_body :=
                errorBody ("Error executing Python script: "
                           ++ describe execError)%string |}
    end.

(** The whole handler. *)
Definition handlePOST (requestJson : Result Json) : HttpResponse :=
  POST runScript requestJson.

End RunScript.

(** The new value of [results.images[key]] for an entry whose value is the
    string [imagePath]: the body of the [forEach] callback, on a host whose
    [existsSync_afterwards] answers for the image files. *)
Definition publishImage (host : Host) (basename : string -> string)
  (copyFileSync : string -> string -> Result unit) (key imagePath : string)
  : string :=
  let publicDir :=
    path_join host (path_join host (cwd host) "public") "analysis_images" in
  if String.prefix "/" imagePath then imagePath          (* already relative *)
  else if existsSync_afterwards host imagePath then
    let filename := basename imagePath in
    let newPath := path_join host publicDir filename in
    match copyFileSync imagePath newPath with
    | Ok _ => ("/analysis_images/" ++ filename)%string
    | Throw copyError =>
        ("/placeholder.svg?height=400&width=600&text=" ++ key)%string
    end
  else ("/placeholder.svg?height=400&width=600&text=" ++ key)%string.

(** A host with an empty disk. *)
Definition bareHost : Host :=
  {| cwd := "/app";
     path_join := fun a b => (a ++ "/" ++ b)%string;
     existsSync := fun _ => false;
     execAsync := fun _ => Ok tt;
     existsSync_afterwards := fun _ => false;
     readFileSync := fun _ => Throw NonError;
     JSON_parse := fun _ => Throw NonError;
     publishImages := fun results => Ok results;
     String_of_nonError := "" |}.

(* ===================================================================== *)
(** * Properties                                                          *)
(* ===================================================================== *)

(** ** Arithmetic of the sampling stride *)

Lemma stride_pos (n : nat) : 1 <= stride n.
Proof. unfold stride. lia. Qed.

Lemma stride_small (n : nat) : n <= 10 -> stride n = 1.
Proof.
  intros Hn. unfold stride.
  assert (n / 10 <= 1).
  { replace 1 with (10 / 10) by reflexivity. apply Nat.Div0.div_le_mono. exact Hn. }
  lia.
Qed.

Lemma ceilDiv_pos (d s : nat) : 1 <= s -> 1 <= d -> ceilDiv d s = S ((d - 1) / s).
Proof.
  intros Hs Hd. unfold ceilDiv.
  replace (d + s - 1) with ((d - 1) + 1 * s) by lia.
  rewrite Nat.div_add by lia. lia.
Qed.

Lemma ceilDiv_zero (s : nat) : 1 <= s -> ceilDiv 0 s = 0.
Proof.
  intros Hs. unfold ceilDiv. apply Nat.div_small. lia.
Qed.

Lemma ceilDiv_step (d s : nat) :
  1 <= s -> 1 <= d -> ceilDiv d s = S (ceilDiv (d - s) s).
Proof.
  intros Hs Hd. rewrite (ceilDiv_pos d s Hs Hd). f_equal.
  destruct (le_lt_dec d s) as [Hle | Hlt].
  - replace (d - s) with 0 by lia. rewrite ceilDiv_zero by exact Hs.
    apply Nat.div_small. lia.
  - rewrite ceilDiv_pos by lia.
    replace (d - 1) with ((d - s - 1) + 1 * s) by lia.
    rewrite Nat.div_add by lia. lia.
Qed.

Lemma ceilDiv_le (d s : nat) : 1 <= s -> ceilDiv d s <= d.
Proof.
  intros Hs. destruct d as [|d].
  - rewrite ceilDiv_zero by exact Hs. lia.
  - rewrite ceilDiv_pos by lia.
    assert ((S d - 1) / s <= S d - 1) by (apply Nat.Div0.div_le_upper_bound; nia).
    lia.
Qed.

Lemma ceilDiv_index_below (d s k : nat) :
  1 <= s -> k < ceilDiv d s -> k * s < d.
Proof.
  intros Hs Hk. destruct d as [|d].
  - rewrite ceilDiv_zero in Hk by exact Hs. lia.
  - rewrite ceilDiv_pos in Hk by lia.
    assert (s * ((S d - 1) / s) <= S d - 1) by (apply Nat.Div0.mul_div_le).
    nia.
Qed.

Lemma ceilDiv_covers (d s : nat) : 1 <= s -> d <= ceilDiv d s * s.
Proof.
  intros Hs. destruct d as [|d]; [lia|].
  rewrite ceilDiv_pos by lia.
  pose proof (Nat.div_mod_eq (S d - 1) s) as E.
  pose proof (Nat.mod_upper_bound (S d - 1) s) as B.
  nia.
Qed.

(** ** The sampling loop *)

Lemma sampleRing_done ring props i points :
  List.length ring <= i -> sampleRing ring props i points = Ok points.
Proof.
  intros Hi. rewrite sampleRing_equation_1.
  destruct (le_lt_dec (List.length ring) i) as [Hle | Hlt]; [reflexivity | lia].
Qed.

Lemma sampleRing_next ring props i points coord :
  nth_error ring i = Some coord ->
  sampleRing ring props i points =
  sampleRing ring props (i + stride (List.length ring))
             (points ++ [pointOf coord props]).
Proof.
  intros Hc. rewrite sampleRing_equation_1.
  destruct (le_lt_dec (List.length ring) i) as [Hle | Hlt].
  - pose proof (proj2 (nth_error_None ring i) Hle). congruence.
  - cbn. rewrite Hc. reflexivity.
Qed.

(** From index [i] on, the loop appends the vertices at [i], [i + stride],
    ... and returns normally. *)
Lemma sampleRing_from ring props m :
  forall i points,
    m = ceilDiv (List.length ring - i) (stride (List.length ring)) ->
    sampleRing ring props i points =
    Ok (points ++
        map (fun k => pointOf (nth (i + k * stride (List.length ring)) ring []) props)
            (seq 0 m)).
Proof.
  pose proof (stride_pos (List.length ring)) as Hs.
  induction m as [|m IH]; intros i points Hm.
  - assert (List.length ring <= i) as Hi.
    { destruct (le_lt_dec (List.length ring) i) as [H | H]; [exact H|].
      rewrite ceilDiv_step in Hm by lia. discriminate. }
    rewrite sampleRing_done by exact Hi. cbn. rewrite app_nil_r. reflexivity.
  - assert (i < List.length ring) as Hi.
    { destruct (le_lt_dec (List.length ring) i) as [H | H]; [|exact H].
      replace (List.length ring - i) with 0 in Hm by lia.
      rewrite ceilDiv_zero in Hm by exact Hs. discriminate. }
    destruct (nth_error ring i) as [coord|] eqn:Hc.
    2:{ apply (proj1 (nth_error_None ring i)) in Hc. lia. }
    rewrite (sampleRing_next _ _ _ _ _ Hc).
    rewrite IH.
    2:{ rewrite ceilDiv_step in Hm by lia.
        injection Hm as Hm. rewrite Hm. f_equal. lia. }
    rewrite <- app_assoc. f_equal. f_equal. cbn [seq map app].
    f_equal.
    + rewrite Nat.mul_0_l, Nat.add_0_r.
      rewrite (nth_error_nth _ _ _ Hc). reflexivity.
    + rewrite <- seq_shift, map_map. apply map_ext. intros k.
      do 2 f_equal. lia.
Qed.

Lemma sampleRing_samples ring props points :
  sampleRing ring props 0 points = Ok (points ++ ringSamples props ring).
Proof.
  rewrite (sampleRing_from ring props (sampleCount (List.length ring))).
  - unfold ringSamples, sampleIndices. rewrite map_map. reflexivity.
  - unfold sampleCount. rewrite Nat.sub_0_r. reflexivity.
Qed.

Lemma ringSamples_length props ring :
  List.length (ringSamples props ring) = sampleCount (List.length ring).
Proof.
  unfold ringSamples, sampleIndices. rewrite !length_map, length_seq. reflexivity.
Qed.

Lemma map_nth_seq {A B : Type} (f : A -> B) (d : A) (l : list A) :
  map (fun i => f (nth i l d)) (seq 0 (List.length l)) = map f l.
Proof.
  induction l as [|a l IH]; [reflexivity|].
  cbn [List.length seq map]. f_equal.
  rewrite <- seq_shift, map_map. exact IH.
Qed.

Lemma ringSamples_small props ring :
  List.length ring <= 10 ->
  ringSamples props ring = map (fun coord => pointOf coord props) ring.
Proof.
  intros Hn. unfold ringSamples, sampleIndices, sampleCount.
  rewrite (stride_small _ Hn). unfold ceilDiv.
  replace (List.length ring + 1 - 1) with (List.length ring) by lia.
  rewrite Nat.div_1_r, map_map.
  rewrite <- (map_nth_seq (fun coord => pointOf coord props) [] ring).
  apply map_ext. intros k. rewrite Nat.mul_1_r. reflexivity.
Qed.

(** ** [forEach] over bodies that append *)

Lemma forEach_append {A P : Type} (body : A -> list P -> Result (list P))
      (g : A -> list P) (xs : list A) :
  (forall x s, body x s = Ok (s ++ g x)) ->
  forall s, forEach xs body s = Ok (s ++ flat_map g xs).
Proof.
  intros Hbody. induction xs as [|x xs IH]; intros s; cbn.
  - rewrite app_nil_r. reflexivity.
  - rewrite Hbody. cbn. rewrite IH, app_assoc. reflexivity.
Qed.

(** ** The reducer computes the specified reduction *)

Lemma processFeature_featurePoints feature points :
  processFeature feature points = Ok (points ++ featurePoints feature).
Proof.
  unfold processFeature, featurePoints.
  destruct (geometry feature) as [[c | c | c | c | rings | polygons | gs]|];
    cbn; rewrite ?app_nil_r; try reflexivity.
  - apply forEach_append. intros ring s. apply sampleRing_samples.
  - apply forEach_append. intros polygon s.
    apply forEach_append. intros ring s'. apply sampleRing_samples.
Qed.

Lemma extractPointsFromPolygons_reduce input :
  extractPointsFromPolygons input = Ok (reduce input).
Proof.
  destruct input as [[features | feature | g]|]; cbn; try reflexivity.
  - apply (forEach_append processFeature featurePoints features).
    intros f s. apply processFeature_featurePoints.
  - apply (processFeature_featurePoints feature []).
Qed.

Lemma ringSamples_from_ring props ring p :
  In p (ringSamples props ring) ->
  exists coord, In coord ring /\ p = pointOf coord props.
Proof.
  unfold ringSamples, sampleIndices. rewrite map_map. intros Hp.
  apply in_map_iff in Hp. destruct Hp as [k [Hk Hin]].
  apply in_seq in Hin.
  exists (nth (k * stride (List.length ring)) ring []). split.
  - apply nth_In. apply ceilDiv_index_below.
    + apply stride_pos.
    + unfold sampleCount in Hin. lia.
  - symmetry. exact Hk.
Qed.

Lemma featurePoints_from_positions feature p :
  In p (featurePoints feature) ->
  exists coord,
    In coord (featurePositions feature) /\
    p = pointOf coord (feature_properties feature).
Proof.
  unfold featurePoints, featurePositions.
  destruct (geometry feature) as [[c | c | c | c | rings | polygons | gs]|];
    cbn; try contradiction.
  - intros [<- | []]. exists c. split; [left; reflexivity | reflexivity].
  - intros Hp. apply in_flat_map in Hp. destruct Hp as [ring [Hring Hp]].
    destruct (ringSamples_from_ring _ _ _ Hp) as [coord [Hc ->]].
    exists coord. split; [|reflexivity].
    apply in_concat. exists ring. split; assumption.
  - intros Hp. apply in_flat_map in Hp. destruct Hp as [polygon [Hpoly Hp]].
    apply in_flat_map in Hp. destruct Hp as [ring [Hring Hp]].
    destruct (ringSamples_from_ring _ _ _ Hp) as [coord [Hc ->]].
    exists coord. split; [|reflexivity].
    apply in_concat. exists ring. split; [|assumption].
    apply in_concat. exists polygon. split; assumption.
Qed.

Lemma reduce_from_positions input p :
  In p (reduce input) ->
  exists coord props,
    In coord (inputPositions input) /\ p = pointOf coord props.
Proof.
  destruct input as [[features | feature | g]|]; cbn; try contradiction.
  - intros Hp. apply in_flat_map in Hp. destruct Hp as [f [Hf Hp]].
    destruct (featurePoints_from_positions _ _ Hp) as [coord [Hc ->]].
    exists coord, (feature_properties f). split; [|reflexivity].
    apply in_flat_map. exists f. split; assumption.
  - intros Hp.
    destruct (featurePoints_from_positions _ _ Hp) as [coord [Hc ->]].
    exists coord, (feature_properties feature). split; [assumption | reflexivity].
Qed.

(* ===================================================================== *)
(** ** Geometry reducer: claims C1, C2, C7                                *)
(* ===================================================================== *)

(** C1.  The reducer returns, for a Polygon feature, the samples of each of
    its rings in order, and for a MultiPolygon feature those of every ring
    of every constituent polygon; inside a collection these stand between
    the points of the features before and after.  For a ring of length [N]
    and [s = max 1 (N / 10)] the loop returns normally and appends the
    vertices at indices [0, s, 2s, ...]: [k * s] for every
    [k < ceil (N / s)], each of them below [N], and the next multiple of [s]
    is not below [N] (the sampling stops, it does not wrap).  So it appends
    exactly [ceil (N / s)] display points, never more than [N], and when
    [N <= 10] it appends every vertex of the ring, in order. *)
Theorem polygon_rings_sampled_at_stride :
  forall (props : option Properties) (rings : list (list Position))
         (polygons : list (list (list Position)))
         (points : list BurnSeverityPoint) (ring : list Position)
         (before after : list Feature),
    let N := List.length ring in
    let s := Nat.max 1 (N / 10) in
    let polygon :=
      {| geometry := Some (Polygon rings); feature_properties := props |} in
    let multiPolygon :=
      {| geometry := Some (MultiPolygon polygons);
         feature_properties := props |} in
    extractPointsFromPolygons (Some (AFeature polygon))
      = Ok (flat_map (ringSamples props) rings)
    /\ extractPointsFromPolygons (Some (AFeature multiPolygon))
      = Ok (flat_map (flat_map (ringSamples props)) polygons)
    /\ (exists pointsBefore pointsAfter,
           extractPointsFromPolygons (Some (FeatureCollection before))
           = Ok pointsBefore
           /\ extractPointsFromPolygons (Some (FeatureCollection after))
              = Ok pointsAfter
           /\ extractPointsFromPolygons
                (Some (FeatureCollection (before ++ polygon :: after)))
              = Ok (pointsBefore ++ flat_map (ringSamples props) rings
                    ++ pointsAfter)
           /\ extractPointsFromPolygons
                (Some (FeatureCollection (before ++ multiPolygon :: after)))
              = Ok (pointsBefore
                    ++ flat_map (flat_map (ringSamples props)) polygons
                    ++ pointsAfter))
    /\ processFeature polygon points
      = Ok (points ++ flat_map (ringSamples props) rings)
    /\ processFeature multiPolygon points
      = Ok (points ++ flat_map (flat_map (ringSamples props)) polygons)
    /\ sampleRing ring props 0 points = Ok (points ++ ringSamples props ring)
    /\ ringSamples props ring
       = map (fun k => pointOf (nth (k * s) ring []) props) (seq 0 (ceilDiv N s))
    /\ (forall k, k < ceilDiv N s -> k * s < N)
    /\ N <= ceilDiv N s * s
    /\ List.length (ringSamples props ring) = ceilDiv N s
    /\ List.length (ringSamples props ring) <= N
    /\ (N <= 10 ->
        ringSamples props ring = map (fun coord => pointOf coord props) ring).
Proof.
  intros props rings polygons points ring before after N s polygon multiPolygon.
  assert (1 <= s) as Hs by (subst s; lia).
  split; [|split; [|split]].
  - rewrite extractPointsFromPolygons_reduce. reflexivity.
  - rewrite extractPointsFromPolygons_reduce. reflexivity.
  - exists (reduce (Some (FeatureCollection before))),
           (reduce (Some (FeatureCollection after))).
    rewrite !extractPointsFromPolygons_reduce. cbn [reduce].
    rewrite !flat_map_app. cbn [flat_map]. repeat split.
  - repeat split.
    + apply (processFeature_featurePoints polygon).
    + apply (processFeature_featurePoints multiPolygon).
    + apply sampleRing_samples.
    + unfold ringSamples, sampleIndices. rewrite map_map. reflexivity.
    + intros k Hk. apply (ceilDiv_index_below N s k Hs Hk).
    + apply (ceilDiv_covers N s Hs).
    + apply ringSamples_length.
    + rewrite ringSamples_length. apply (ceilDiv_le N s Hs).
    + apply ringSamples_small.
Qed.

Lemma polygon_rings_sampled_at_stride_witness :
  extractPointsFromPolygons
    (Some (AFeature
       {| geometry := Some (Polygon [[[1#1; 2#1]; [3#1; 4#1]; [5#1; 6#1]]%Q]);
          feature_properties := None |}))
  = Ok [ pointOf [1#1; 2#1]%Q None;
         pointOf [3#1; 4#1]%Q None;
         pointOf [5#1; 6#1]%Q None ].
Proof.
  destruct (polygon_rings_sampled_at_stride
              None [[[1#1; 2#1]; [3#1; 4#1]; [5#1; 6#1]]%Q] [] []
              [[1#1; 2#1]; [3#1; 4#1]; [5#1; 6#1]]%Q [] [])
    as [Hreducer [_ [_ [_ [_ [_ [_ [_ [_ [_ [_ Hwhole]]]]]]]]]]].
  rewrite Hreducer. cbn [flat_map]. rewrite app_nil_r.
  rewrite Hwhole by (cbn; lia). reflexivity.
Defined.

(** C2.  The reducer returns normally, and every display point it returns
    was built from a position [coord] of a Point, Polygon or MultiPolygon
    of the input, with [latlng = [coord[1], coord[0]]]: a position
    [[longitude, latitude, ...]] gives the point at
    [{latitude, longitude}].  A Point feature at [[longitude, latitude]]
    gives exactly that one point, and the position [[10, 20]] gives latitude
    20 and longitude 10. *)
Theorem reducer_swaps_axes :
  forall (input : option GeoJSON),
    (exists points,
        extractPointsFromPolygons input = Ok points /\
        Forall (fun p =>
                  exists coord,
                    In coord (inputPositions input) /\
                    latlng p = (nth_error coord 1, nth_error coord 0) /\
                    (forall lon lat rest,
                        coord = lon :: lat :: rest ->
                        latlng p = (Some lat, Some lon)))
               points)
    /\ (forall lon lat props,
           extractPointsFromPolygons
             (Some (AFeature {| geometry := Some (Point [lon; lat]);
                                feature_properties := props |}))
           = Ok [ {| latlng := (Some lat, Some lon);
                     properties := readProperties props |} ])
    /\ map latlng (reduce (Some (AFeature
                            {| geometry := Some (Point [10#1; 20#1]%Q);
                               feature_properties := None |})))
       = [ (Some (20#1)%Q, Some (10#1)%Q) ].
Proof.
  intros input. split; [|split].
  - exists (reduce input). split.
    + apply extractPointsFromPolygons_reduce.
    + apply Forall_forall. intros p Hp.
      destruct (reduce_from_positions input p Hp) as [coord [props [Hc ->]]].
      exists coord. split; [exact Hc|]. split; [reflexivity|].
      intros lon lat rest ->. reflexivity.
  - intros lon lat props. reflexivity.
  - reflexivity.
Qed.

Lemma reducer_swaps_axes_witness :
  exists points,
    extractPointsFromPolygons
      (Some (FeatureCollection
         [ {| geometry := Some (Polygon [[[10#1; 20#1]; [11#1; 21#1]]%Q]);
              feature_properties := None |} ])) = Ok points /\
    map latlng points
    = [ (Some (20#1)%Q, Some (10#1)%Q); (Some (21#1)%Q, Some (11#1)%Q) ].
Proof.
  destruct (proj1 (reducer_swaps_axes
    (Some (FeatureCollection
       [ {| geometry := Some (Polygon [[[10#1; 20#1]; [11#1; 21#1]]%Q]);
            feature_properties := None |} ])))) as [points [Hrun _]].
  exists points. split; [exact Hrun|].
  rewrite extractPointsFromPolygons_reduce in Hrun.
  injection Hrun as <-. reflexivity.
Defined.

(** C7.  The reducer never throws: on every input it returns a sequence of
    display points.  On [null] and on an empty feature collection that
    sequence is empty.  A feature whose geometry is absent, or is not a
    Point, Polygon or MultiPolygon, leaves the collected points as they are
    and does not throw, so inside a collection it contributes nothing. *)
Theorem reducer_total_on_degenerate_input :
  (forall input, exists points, extractPointsFromPolygons input = Ok points)
  /\ extractPointsFromPolygons None = Ok []
  /\ extractPointsFromPolygons (Some (FeatureCollection [])) = Ok []
  /\ (forall feature points,
         supported feature = false ->
         processFeature feature points = Ok points)
  /\ (forall before feature after,
         supported feature = false ->
         extractPointsFromPolygons
           (Some (FeatureCollection (before ++ feature :: after)))
         = extractPointsFromPolygons (Some (FeatureCollection (before ++ after)))).
Proof.
  assert (forall feature, supported feature = false -> featurePoints feature = [])
    as Hnone.
  { intros feature. unfold supported, featurePoints.
    destruct (geometry feature) as [[c | c | c | c | rings | polygons | gs]|];
      intros H; try discriminate; reflexivity. }
  repeat split.
  - intros input. exists (reduce input). apply extractPointsFromPolygons_reduce.
  - intros feature points H.
    rewrite processFeature_featurePoints, (Hnone feature H), app_nil_r.
    reflexivity.
  - intros before feature after H.
    rewrite !extractPointsFromPolygons_reduce. cbn.
    rewrite !flat_map_app. cbn. rewrite (Hnone feature H). reflexivity.
Qed.

Lemma reducer_total_on_degenerate_input_witness :
  processFeature
    {| geometry := Some (LineString [[1#1; 2#1]; [3#1; 4#1]]%Q);
       feature_properties := None |} []
  = Ok []
  /\ processFeature {| geometry := None; feature_properties := None |} []
     = Ok [].
Proof.
  destruct reducer_total_on_degenerate_input as [_ [_ [_ [Hskip _]]]].
  split; apply Hskip; reflexivity.
Defined.

(* ===================================================================== *)
(** ** Severity tables: claim C6                                          *)
(* ===================================================================== *)

Lemma Qeq_bool_inject_Z (a b : Z) :
  Qeq_bool (inject_Z a) (inject_Z b) = Z.eqb a b.
Proof.
  unfold Qeq_bool, inject_Z. cbn. rewrite !Z.mul_1_r. reflexivity.
Qed.

(** C6.  On every integer the two tables are defined: 1 is Low / #69B34C,
    2 Moderate / #FAB733, 3 High / #FF8E15, 4 Very High / #FF4E11,
    5 Extreme / #FF0D0D, and every other integer, 0 and 99 among them, is
    Unknown / #CCCCCC. *)
Theorem severity_tables_total :
  forall z : Z,
    (getSeverityLabel (inject_Z z), getBurnSeverityColor (inject_Z z))
    = match z with
      | 1%Z => ("Low", "#69B34C")
      | 2%Z => ("Moderate", "#FAB733")
      | 3%Z => ("High", "#FF8E15")
      | 4%Z => ("Very High", "#FF4E11")
      | 5%Z => ("Extreme", "#FF0D0D")
      | _ => ("Unknown", "#CCCCCC")
      end.
Proof.
  intros z. unfold getSeverityLabel, getBurnSeverityColor.
  change 1%Q with (inject_Z 1). change 2%Q with (inject_Z 2).
  change 3%Q with (inject_Z 3). change 4%Q with (inject_Z 4).
  change 5%Q with (inject_Z 5).
  rewrite !Qeq_bool_inject_Z.
  destruct z as [|p|p]; try reflexivity.
  destruct p as [[[q|q|]|[q|q|]|]|[[q|q|]|[q|q|]|]|]; reflexivity.
Qed.

(* ===================================================================== *)
(** ** Session store: claims C3, C4, C8, C9                               *)
(* ===================================================================== *)

Ltac store_facts :=
  repeat match goal with
         | |- _ /\ _ => split
         | |- forall _, _ => intro
         end;
  cbn in *; try congruence; try reflexivity.

(** C3.  When the analysis fails, an uninterrupted [runAnalysis] ends with
    status Failed: the loading flag is down and [error] holds the failure's
    message (the [message] of the thrown [Error]; the fixed text
    "An unknown error occurred" for a thrown value that is not an [Error]).
    [analysisResults], [burnSeverityPolygons] and [selectedLocation] are
    what they were before the call, so a prior result R is still held. *)
Theorem runAnalysis_failure_keeps_result :
  forall (Number_toString : number -> string)
         (fetch : AnalysisParams -> Result Response)
         (params : AnalysisParams) (w : Session) (failure : Thrown),
    analyzeWildfire Number_toString fetch params = Throw failure ->
    let w' := runAnalysis Number_toString fetch params w in
    statusOf (store w') = Failed
    /\ isLoading (store w') = false
    /\ error (store w') = Some (messageOf failure)
    /\ (forall message,
           failure = ErrorObject message -> error (store w') = Some message)
    /\ analysisResults (store w') = analysisResults (store w)
    /\ burnSeverityPolygons (store w') = burnSeverityPolygons (store w)
    /\ selectedLocation (store w') = selectedLocation (store w)
    /\ (forall R,
           analysisResults (store w) = Some R ->
           analysisResults (store w') = Some R).
Proof.
  intros Number_toString fetch params w failure Hfail w'.
  subst w'. unfold runAnalysis. rewrite Hfail.
  store_facts. subst failure. reflexivity.
Qed.

Lemma runAnalysis_failure_keeps_result_witness :
  let w' := runAnalysis noNumber unreachable exampleParams succeededSession in
  statusOf (store w') = Failed
  /\ error (store w') = Some "timeout"
  /\ analysisResults (store w') = Some mockAnalysisResults.
Proof.
  intros w'.
  destruct (runAnalysis_failure_keeps_result
              noNumber unreachable exampleParams succeededSession
              (ErrorObject "timeout") eq_refl)
    as [Hstatus [_ [_ [Hmessage [_ [_ [_ Hkept]]]]]]].
  split; [exact Hstatus|]. split.
  - apply Hmessage. reflexivity.
  - apply Hkept. reflexivity.
Defined.

(** C4, as the store has it.  [setSelectedLocation loc] sets
    [selectedLocation] to [loc] and clears [analysisResults],
    [burnSeverityPolygons] and [error]; it leaves the loading flag, the layer
    visibility and the requests made as they are.  The status afterwards is
    Idle when no analysis is in flight and stays Running when one is. *)
Theorem setSelectedLocation_clears_result :
  forall (loc : Location) (w : Session),
    let w' := setSelectedLocation loc w in
    selectedLocation (store w') = Some loc
    /\ analysisResults (store w') = None
    /\ burnSeverityPolygons (store w') = None
    /\ error (store w') = None
    /\ isLoading (store w') = isLoading (store w)
    /\ visibleLayers (store w') = visibleLayers (store w)
    /\ requests w' = requests w
    /\ statusOf (store w') = (if isLoading (store w) then Running else Idle).
Proof.
  intros loc w w'. subst w'. store_facts.
Qed.

(** C4, counterexample.  With an analysis in flight, selecting a location
    leaves the status at Running, not Idle. *)
Lemma setSelectedLocation_in_flight_stays_running :
  statusOf (store runningSession) = Running
  /\ statusOf (store (setSelectedLocation defaultCentre runningSession)) = Running
  /\ statusOf (store (setSelectedLocation defaultCentre runningSession)) <> Idle.
Proof.
  split; [reflexivity|]. split; [reflexivity|]. discriminate.
Qed.

(** C8, as the store has it.  [clearAnalysis] clears [analysisResults],
    [burnSeverityPolygons] and [error] and leaves [selectedLocation], the
    loading flag, the layer visibility and the requests made as they are.
    The status afterwards is Idle when no analysis is in flight and stays
    Running when one is. *)
Theorem clearAnalysis_resets_result :
  forall (w : Session),
    let w' := clearAnalysis w in
    analysisResults (store w') = None
    /\ burnSeverityPolygons (store w') = None
    /\ error (store w') = None
    /\ selectedLocation (store w') = selectedLocation (store w)
    /\ isLoading (store w') = isLoading (store w)
    /\ visibleLayers (store w') = visibleLayers (store w)
    /\ requests w' = requests w
    /\ statusOf (store w') = (if isLoading (store w) then Running else Idle).
Proof.
  intros w w'. subst w'. store_facts.
Qed.

(** C8, counterexample.  With an analysis in flight, [clearAnalysis] leaves
    the status at Running, not Idle. *)
Lemma clearAnalysis_in_flight_stays_running :
  statusOf (store runningSession) = Running
  /\ statusOf (store (clearAnalysis runningSession)) = Running
  /\ statusOf (store (clearAnalysis runningSession)) <> Idle.
Proof.
  split; [reflexivity|]. split; [reflexivity|]. discriminate.
Qed.

(** C9, as the panel has it.  With a location selected, [handleUseMockData]
    stores the mock result computed for that location and the panel's dates:
    the status becomes Succeeded, whatever it was, [error] is cleared, no
    request is handed to the analysis client, and [selectedLocation] and the
    layer visibility are unchanged.  With no location selected it changes
    nothing. *)
Theorem handleUseMockData_with_location :
  forall (getMockAnalysisResults : AnalysisParams -> AnalysisResults)
         (preFire postFire : string) (w : Session),
    let w' := handleUseMockData getMockAnalysisResults preFire postFire w in
    (forall loc,
        selectedLocation (store w) = Some loc ->
        let fixedResult :=
          getMockAnalysisResults
            {| params_latitude := latitude loc;
               params_longitude := longitude loc;
               params_preFireDate := preFire;
               params_postFireDate := postFire;
               params_bufferKm := None |} in
        statusOf (store w') = Succeeded
        /\ analysisResults (store w') = Some fixedResult
        /\ burnSeverityPolygons (store w')
           = results_burnSeverityPolygons fixedResult
        /\ error (store w') = None
        /\ isLoading (store w') = false
        /\ requests w' = requests w
        /\ selectedLocation (store w') = selectedLocation (store w)
        /\ visibleLayers (store w') = visibleLayers (store w))
    /\ (selectedLocation (store w) = None -> w' = w).
Proof.
  intros getMock preFire postFire w w'. subst w'.
  unfold handleUseMockData. split.
  - intros loc Hloc. rewrite Hloc. store_facts.
  - intros Hnone. rewrite Hnone. reflexivity.
Qed.

Lemma handleUseMockData_with_location_witness :
  let w' :=
    handleUseMockData (fun _ => mockAnalysisResults)
                      "2023-06-01" "2023-08-01" runningSession in
  statusOf (store w') = Succeeded
  /\ analysisResults (store w') = Some mockAnalysisResults
  /\ requests w' = requests runningSession
  /\ selectedLocation (store w') = Some defaultCentre.
Proof.
  intros w'.
  destruct (proj1 (handleUseMockData_with_location
                     (fun _ => mockAnalysisResults) "2023-06-01" "2023-08-01"
                     runningSession) defaultCentre eq_refl)
    as [Hstatus [Hresult [_ [_ [_ [Hrequests [Hloc _]]]]]]].
  split; [exact Hstatus|]. split; [exact Hresult|].
  split; [exact Hrequests|]. exact Hloc.
Defined.

(** C9, counterexample.  From the initial state, where no location is
    selected, [handleUseMockData] returns at once: the status stays Idle and
    no result is stored. *)
Lemma handleUseMockData_without_location_does_nothing :
  selectedLocation (store initialSession) = None
  /\ handleUseMockData (fun _ => mockAnalysisResults)
                       "2023-06-01" "2023-08-01" initialSession
     = initialSession
  /\ statusOf (store (handleUseMockData (fun _ => mockAnalysisResults)
                        "2023-06-01" "2023-08-01" initialSession)) = Idle
  /\ analysisResults (store (handleUseMockData (fun _ => mockAnalysisResults)
                        "2023-06-01" "2023-08-01" initialSession)) = None.
Proof.
  repeat split.
Qed.

(* ===================================================================== *)
(** ** Analysis client: claim C5                                          *)
(* ===================================================================== *)


Lemma member_of_falsy key v : truthy v = false -> member key v = None.
Proof. destruct v; cbn; intros H; try discriminate; reflexivity. Qed.




(* ===================================================================== *)
(** ** Analysis route: claim C10                                          *)
(* ===================================================================== *)

(** C10.  Whatever the rest of the handler would do, a request whose
    [latitude], [longitude], [preFireDate] or [postFireDate] is falsy once
    destructured (absent, [null], [false], [0] or the empty string) is
    answered 400 with [{ error: "Missing required parameters" }].
    Destructuring succeeds on every body but [null].  In particular a body
    whose latitude or longitude is the number 0 is answered so, exactly as
    the body without that member is. *)
Theorem POST_rejects_falsy_parameters :
  forall (analyse : RequestFields -> Result HttpResponse),
    (forall body fields,
        destructure body = Ok fields ->
        negb (truthy_opt (field_latitude fields))
        || negb (truthy_opt (field_longitude fields))
        || negb (truthy_opt (field_preFireDate fields))
        || negb (truthy_opt (field_postFireDate fields)) = true ->
        POST analyse (Ok body) = missingParameters)
    /\ (forall body,
           body <> JNull ->
           exists fields,
             destructure body = Ok fields
             /\ field_latitude fields = member "latitude" body
             /\ field_longitude fields = member "longitude" body
             /\ field_preFireDate fields = member "preFireDate" body
             /\ field_postFireDate fields = member "postFireDate" body)
    /\ (forall members,
           lookupMember "latitude" members = Some (JNumber 0%Q)
           \/ lookupMember "longitude" members = Some (JNumber 0%Q) ->
           POST analyse (Ok (JObject members)) = missingParameters)
    /\ POST analyse (Ok bodyLatitudeZero) = missingParameters
    /\ POST analyse (Ok bodyNoLatitude) = missingParameters.
Proof.
  intros analyse.
  assert (forall body fields,
             destructure body = Ok fields ->
             negb (truthy_opt (field_latitude fields))
             || negb (truthy_opt (field_longitude fields))
             || negb (truthy_opt (field_preFireDate fields))
             || negb (truthy_opt (field_postFireDate fields)) = true ->
             POST analyse (Ok body) = missingParameters) as Hreject.
  { intros body fields Hd Hfalsy. unfold POST. cbn [bind].
    rewrite Hd. cbn [bind]. rewrite Hfalsy. reflexivity. }
  split; [exact Hreject|]. split; [|split; [|split]].
  - intros body Hbody. destruct body; try contradiction;
      eexists; (split; [reflexivity|]); repeat split.
  - intros members Hzero.
    apply (Hreject (JObject members) _ eq_refl). cbn.
    destruct Hzero as [H | H]; rewrite H; cbn.
    + reflexivity.
    + rewrite Bool.orb_true_r. reflexivity.
  - apply (Hreject bodyLatitudeZero _ eq_refl). reflexivity.
  - apply (Hreject bodyNoLatitude _ eq_refl). reflexivity.
Qed.

Lemma POST_rejects_falsy_parameters_witness :
  POST (fun _ => Ok {| http_status := 200%N; http_body := JObject [] |})
       (Ok bodyLongitudeZero)
  = missingParameters.
Proof.
  apply (proj1 (POST_rejects_falsy_parameters _) bodyLongitudeZero _ eq_refl).
  reflexivity.
Defined.


(* ===================================================================== *)
(** * Further properties                                                  *)
(* ===================================================================== *)

(** ** Geometry reducer *)

Lemma sampleCount_whole (n : nat) : n <= 19 -> sampleCount n = n.
Proof.
  intros Hn. unfold sampleCount, stride.
  assert (n / 10 <= 1) as Hq.
  { replace 1 with (19 / 10) by reflexivity. apply Nat.Div0.div_le_mono. exact Hn. }
  replace (Nat.max 1 (n / 10)) with 1 by lia.
  unfold ceilDiv. replace (n + 1 - 1) with n by lia. apply Nat.div_1_r.
Qed.

Lemma sampleCount_thinned (n : nat) :
  10 <= n -> 10 <= sampleCount n <= 19 /\ (20 <= n -> sampleCount n < n).
Proof.
  intros Hn. unfold sampleCount, stride.
  pose proof (Nat.div_mod_eq n 10) as Hdm.
  pose proof (Nat.mod_upper_bound n 10) as Hmod.
  remember (n / 10) as q eqn:Hq.
  assert (1 <= q) as Hq1 by lia.
  replace (Nat.max 1 q) with q by lia.
  unfold ceilDiv. repeat split.
  - apply Nat.div_le_lower_bound; lia.
  - assert ((n + q - 1) / q < 20); [|lia].
    apply Nat.Div0.div_lt_upper_bound. lia.
  - intros H20. assert (2 <= q) as Hq2 by lia.
    apply Nat.Div0.div_lt_upper_bound. nia.
Qed.

(** X1.  Whatever was collected before, sampling a ring returns normally
    and appends at most 19 points.  A ring of up to 19 vertices is kept
    whole; a longer one is thinned to between 10 and 19 points, fewer than
    it has vertices. *)
Theorem ring_sample_count_bounds :
  forall (ring : list Position) (props : option Properties)
         (points : list BurnSeverityPoint),
    exists samples,
      sampleRing ring props 0 points = Ok (points ++ samples)
      /\ List.length samples <= 19
      /\ (List.length ring <= 19 -> List.length samples = List.length ring)
      /\ (20 <= List.length ring ->
          10 <= List.length samples < List.length ring).
Proof.
  intros ring props points. exists (ringSamples props ring).
  split; [apply sampleRing_samples|].
  rewrite ringSamples_length.
  destruct (le_lt_dec (List.length ring) 19) as [Hsmall | Hlarge].
  - rewrite (sampleCount_whole _ Hsmall). repeat split; lia.
  - destruct (sampleCount_thinned (List.length ring)) as [[Hlo Hhi] Hlt]; [lia|].
    repeat split; lia.
Qed.

Lemma ring_sample_count_bounds_witness :
  exists samples,
    sampleRing (repeat [1#1; 2#1]%Q 25) None 0 [] = Ok samples
    /\ 10 <= List.length samples < 25.
Proof.
  destruct (ring_sample_count_bounds (repeat [1#1; 2#1]%Q 25) None [])
    as [samples [Hrun [_ [_ Hthin]]]].
  exists samples. split; [exact Hrun|].
  apply Hthin. cbn. lia.
Defined.

(** X2.  The reducer works feature by feature, in order: the points of a
    collection [before ++ after] are the points of [before] followed by the
    points of [after], and a lone feature gives what the collection holding
    just that feature gives. *)
Theorem reducer_concatenates_features :
  forall (before after : list Feature) (feature : Feature),
    (exists p1 p2,
        extractPointsFromPolygons (Some (FeatureCollection before)) = Ok p1
        /\ extractPointsFromPolygons (Some (FeatureCollection after)) = Ok p2
        /\ extractPointsFromPolygons
             (Some (FeatureCollection (before ++ after))) = Ok (p1 ++ p2))
    /\ extractPointsFromPolygons (Some (AFeature feature))
       = extractPointsFromPolygons (Some (FeatureCollection [feature])).
Proof.
  intros before after feature. split.
  - exists (reduce (Some (FeatureCollection before))),
           (reduce (Some (FeatureCollection after))).
    rewrite !extractPointsFromPolygons_reduce. cbn.
    rewrite flat_map_app. repeat split.
  - rewrite !extractPointsFromPolygons_reduce. cbn.
    rewrite app_nil_r. reflexivity.
Qed.

(** X3.  Every point a feature contributes carries that feature's
    [severity] and [area], and carries neither when the feature's
    [properties] is [null]. *)
Theorem reducer_points_inherit_properties :
  forall (feature : Feature) (points : list BurnSeverityPoint),
    exists added,
      processFeature feature points = Ok (points ++ added)
      /\ Forall (fun p =>
                   properties p
                   = match feature_properties feature with
                     | Some bag => {| severity := severity bag; area := area bag |}
                     | None => {| severity := None; area := None |}
                     end)
                added.
Proof.
  intros feature points. exists (featurePoints feature).
  split; [apply processFeature_featurePoints|].
  apply Forall_forall. intros p Hp.
  destruct (featurePoints_from_positions feature p Hp) as [coord [_ ->]].
  cbn. unfold readProperties.
  destruct (feature_properties feature); reflexivity.
Qed.

Lemma flat_map_length_le {A B C : Type} (g : A -> list B) (h : A -> list C)
      (l : list A) :
  (forall x, List.length (g x) <= List.length (h x)) ->
  List.length (flat_map g l) <= List.length (flat_map h l).
Proof.
  intros Hle. induction l as [|x l IH]; cbn; [lia|].
  rewrite !length_app. specialize (Hle x). lia.
Qed.

Lemma flat_map_id_concat {A : Type} (l : list (list A)) :
  flat_map (fun x => x) l = List.concat l.
Proof. induction l as [|x l IH]; cbn; [reflexivity | rewrite IH; reflexivity]. Qed.

Lemma concat_concat_flat_map {A : Type} (l : list (list (list A))) :
  List.concat (List.concat l) = flat_map (fun p => List.concat p) l.
Proof.
  induction l as [|x l IH]; cbn; [reflexivity|].
  rewrite concat_app, IH. reflexivity.
Qed.

Lemma ringSamples_length_le props ring :
  List.length (ringSamples props ring) <= List.length ring.
Proof.
  rewrite ringSamples_length. apply ceilDiv_le, stride_pos.
Qed.

Lemma featurePoints_length_le feature :
  List.length (featurePoints feature) <= List.length (featurePositions feature).
Proof.
  unfold featurePoints, featurePositions.
  destruct (geometry feature) as [[c | c | c | c | rings | polygons | gs]|];
    cbn; try lia.
  - rewrite <- flat_map_id_concat. apply flat_map_length_le.
    intros ring. apply ringSamples_length_le.
  - rewrite concat_concat_flat_map. apply flat_map_length_le.
    intros polygon. rewrite <- flat_map_id_concat. apply flat_map_length_le.
    intros ring. apply ringSamples_length_le.
Qed.

Lemma reduce_length_le input :
  List.length (reduce input) <= List.length (inputPositions input).
Proof.
  destruct input as [[features | feature | g]|]; cbn; try lia.
  - apply flat_map_length_le. intros f. apply featurePoints_length_le.
  - apply featurePoints_length_le.
Qed.

(** X4.  The reducer never returns more points than the input's Points,
    Polygons and MultiPolygons have positions. *)
Theorem reducer_never_adds_points :
  forall (input : option GeoJSON),
    exists points,
      extractPointsFromPolygons input = Ok points
      /\ List.length points <= List.length (inputPositions input).
Proof.
  intros input. exists (reduce input).
  split; [apply extractPointsFromPolygons_reduce | apply reduce_length_le].
Qed.

(** ** Severity tables, legend and markers *)

(** X5.  The two tables classify every number alike: two severities are
    drawn in the same colour exactly when they carry the same label. *)
Theorem severity_colour_determines_label :
  forall (s1 s2 : number),
    getBurnSeverityColor s1 = getBurnSeverityColor s2
    <-> getSeverityLabel s1 = getSeverityLabel s2.
Proof.
  intros s1 s2. unfold getBurnSeverityColor, getSeverityLabel.
  destruct (Qeq_bool s1 1), (Qeq_bool s1 2), (Qeq_bool s1 3),
           (Qeq_bool s1 4), (Qeq_bool s1 5),
           (Qeq_bool s2 1), (Qeq_bool s2 2), (Qeq_bool s2 3),
           (Qeq_bool s2 4), (Qeq_bool s2 5);
    split; intros H; first [reflexivity | discriminate H].
Qed.

(** X6.  The legend lists, in order, the label and colour the tables give
    the severities 1 to 5; and for every number the label and colour of a
    marker are either a row of the legend or Unknown / #CCCCCC. *)
Theorem legend_matches_tables :
  severityClasses
  = map (fun k => (getSeverityLabel (inject_Z k), getBurnSeverityColor (inject_Z k)))
        [1; 2; 3; 4; 5]%Z
  /\ forall s : number,
       (getSeverityLabel s, getBurnSeverityColor s) = ("Unknown", "#CCCCCC")
       \/ In (getSeverityLabel s, getBurnSeverityColor s) severityClasses.
Proof.
  split; [reflexivity|].
  intros s. unfold getBurnSeverityColor, getSeverityLabel, severityClasses.
  destruct (Qeq_bool s 1); [right; cbn; tauto|].
  destruct (Qeq_bool s 2); [right; cbn; tauto|].
  destruct (Qeq_bool s 3); [right; cbn; tauto|].
  destruct (Qeq_bool s 4); [right; cbn; tauto|].
  destruct (Qeq_bool s 5); [right; cbn; tauto|].
  left. reflexivity.
Qed.

Lemma Qeq_bool_zero_not (s : number) (k : Z) :
  Qeq_bool s 0 = true -> k <> 0%Z -> Qeq_bool s (inject_Z k) = false.
Proof.
  intros Hz Hk. destruct (Qeq_bool s (inject_Z k)) eqn:E; [|reflexivity].
  apply Qeq_bool_eq in Hz. apply Qeq_bool_eq in E.
  rewrite Hz in E. unfold Qeq in E. cbn in E. lia.
Qed.

Lemma zero_severity_colour (s : number) :
  Qeq_bool s 0 = true ->
  getBurnSeverityColor s = "#CCCCCC" /\ getSeverityLabel s = "Unknown".
Proof.
  intros Hz. unfold getBurnSeverityColor, getSeverityLabel.
  change 1%Q with (inject_Z 1). change 2%Q with (inject_Z 2).
  change 3%Q with (inject_Z 3). change 4%Q with (inject_Z 4).
  change 5%Q with (inject_Z 5).
  rewrite !(Qeq_bool_zero_not s _ Hz) by discriminate.
  split; reflexivity.
Qed.

(** X7.  A marker sits where its point is and is drawn, fill and outline,
    in the colour of the point's severity, with that severity's label; a
    point with no severity is drawn #CCCCCC and labelled Unknown.  The
    popup shows an area only when the point has one that is not 0. *)
Theorem marker_of_point :
  forall (point : BurnSeverityPoint),
    center (markerOf point) = latlng point
    /\ color (markerOf point) = fillColor (markerOf point)
    /\ fillColor (markerOf point)
       = match severity (properties point) with
         | Some s => getBurnSeverityColor s
         | None => "#CCCCCC"
         end
    /\ popupLabel (markerOf point)
       = match severity (properties point) with
         | Some s => getSeverityLabel s
         | None => "Unknown"
         end
    /\ (popupArea (markerOf point) = None
        <-> match area (properties point) with
            | Some a => Qeq a 0
            | None => True
            end).
Proof.
  intros point. unfold markerOf, markerSeverity. cbn.
  assert (match area (properties point) with
          | Some a => if Qeq_bool a 0 then None else Some a
          | None => None
          end = None
          <-> match area (properties point) with
              | Some a => Qeq a 0
              | None => True
              end) as Harea.
  { destruct (area (properties point)) as [a|]; [|tauto].
    destruct (Qeq_bool a 0) eqn:Ha; split.
    - intros _. apply Qeq_bool_eq. exact Ha.
    - reflexivity.
    - discriminate.
    - intros H. apply Qeq_eq_bool in H. congruence. }
  split; [reflexivity|]. split; [reflexivity|].
  destruct (severity (properties point)) as [s|].
  - destruct (Qeq_bool s 0) eqn:Hz.
    + destruct (zero_severity_colour s Hz) as [-> ->].
      split; [reflexivity|]. split; [reflexivity | exact Harea].
    + split; [reflexivity|]. split; [reflexivity | exact Harea].
  - split; [reflexivity|]. split; [reflexivity | exact Harea].
Qed.

Lemma renderedMarkers_eq (state : WildfireStore) :
  renderedMarkers state
  = Ok (if burnSeverity (visibleLayers state)
        then map markerOf (reduce (burnSeverityPolygons state))
        else []).
Proof.
  unfold renderedMarkers.
  destruct (burnSeverityPolygons state) as [g|] eqn:Hg.
  - rewrite extractPointsFromPolygons_reduce. reflexivity.
  - cbn. destruct (burnSeverity (visibleLayers state)); reflexivity.
Qed.

(** X8.  Rendering the markers never throws.  There are none while the
    burn-severity layer is hidden or the store holds no polygons; otherwise
    there is one per reduced point, in order, so never more than the
    polygons have positions. *)
Theorem renderedMarkers_gate :
  forall (state : WildfireStore),
    exists markers,
      renderedMarkers state = Ok markers
      /\ (burnSeverity (visibleLayers state) = false -> markers = [])
      /\ (burnSeverityPolygons state = None -> markers = [])
      /\ (burnSeverity (visibleLayers state) = true ->
          markers = map markerOf (reduce (burnSeverityPolygons state)))
      /\ List.length markers
         <= List.length (inputPositions (burnSeverityPolygons state)).
Proof.
  intros state. eexists. split; [apply renderedMarkers_eq|].
  destruct (burnSeverity (visibleLayers state)).
  - split; [discriminate|]. split.
    + intros ->. reflexivity.
    + split; [reflexivity|]. rewrite length_map.
      apply reduce_length_le.
  - split; [reflexivity|]. split; [reflexivity|].
    split; [discriminate | cbn; lia].
Qed.

(** ** Store operations and the views *)

(** X9.  Selecting a location or clearing the analysis removes every
    marker, whatever the layer visibility; a failed analysis leaves the
    markers of the result held before it; toggling the layer twice restores
    them. *)
Theorem markers_across_operations :
  forall (w : Session) (location : Location) (params : AnalysisParams)
         (failure : Thrown),
    renderedMarkers (store (setSelectedLocation location w)) = Ok []
    /\ renderedMarkers (store (clearAnalysis w)) = Ok []
    /\ renderedMarkers
         (store (runAnalysis_settle (Throw failure) (runAnalysis_begin params w)))
       = renderedMarkers (store w)
    /\ renderedMarkers (store (toggleLayerVisibility (toggleLayerVisibility w)))
       = renderedMarkers (store w)
    /\ (burnSeverity (visibleLayers (store w)) = true ->
        renderedMarkers (store (toggleLayerVisibility w)) = Ok []).
Proof.
  intros w location params failure.
  rewrite !renderedMarkers_eq. cbn.
  rewrite Bool.negb_involutive.
  repeat split.
  - destruct (burnSeverity (visibleLayers (store w))); reflexivity.
  - destruct (burnSeverity (visibleLayers (store w))); reflexivity.
  - intros ->. reflexivity.
Qed.

Lemma markers_across_operations_witness :
  renderedMarkers (store (toggleLayerVisibility succeededSession)) = Ok [].
Proof.
  apply (markers_across_operations
           succeededSession defaultCentre exampleParams NonError).
  reflexivity.
Defined.

(** X10.  A click on the map is ignored while an analysis is in flight:
    the session is left as it is.  Otherwise it selects the clicked point
    and clears result and error, so the status is Idle and no marker is
    left.  Either way the status after a click is Running exactly when it
    was Running before. *)
Theorem map_click_guard :
  forall (latlng : LatLng) (w : Session),
    (isLoading (store w) = true -> handleClick latlng w = w)
    /\ (isLoading (store w) = false ->
        selectedLocation (store (handleClick latlng w))
        = Some {| latitude := lat latlng; longitude := lng latlng |}
        /\ analysisResults (store (handleClick latlng w)) = None
        /\ error (store (handleClick latlng w)) = None
        /\ statusOf (store (handleClick latlng w)) = Idle
        /\ renderedMarkers (store (handleClick latlng w)) = Ok [])
    /\ (statusOf (store (handleClick latlng w)) = Running
        <-> statusOf (store w) = Running).
Proof.
  intros latlng w. unfold handleClick.
  destruct (isLoading (store w)) eqn:Hl.
  - split; [reflexivity|]. split; [discriminate | tauto].
  - split; [discriminate|]. split.
    + intros _. rewrite renderedMarkers_eq. cbn. rewrite Hl.
      repeat split.
      destruct (burnSeverity (visibleLayers (store w))); reflexivity.
    + unfold statusOf. cbn. rewrite Hl.
      split; [discriminate|].
      destruct (error (store w)); [discriminate|].
      destruct (analysisResults (store w)); discriminate.
Qed.

Lemma map_click_guard_witness :
  handleClick {| lat := 0%Q; lng := 0%Q |} runningSession = runningSession
  /\ statusOf (store (handleClick {| lat := 0%Q; lng := 0%Q |} succeededSession))
     = Idle.
Proof.
  split.
  - apply (map_click_guard {| lat := 0%Q; lng := 0%Q |} runningSession).
    reflexivity.
  - apply (map_click_guard {| lat := 0%Q; lng := 0%Q |} succeededSession).
    reflexivity.
Defined.

Lemma runAnalysis_requests nts fetch params w :
  requests (runAnalysis nts fetch params w) = requests w ++ [params].
Proof.
  unfold runAnalysis.
  destruct (analyzeWildfire nts fetch params); reflexivity.
Qed.

Lemma runAnalysis_settled nts fetch params w :
  isLoading (store (runAnalysis nts fetch params w)) = false
  /\ selectedLocation (store (runAnalysis nts fetch params w))
     = selectedLocation (store w)
  /\ (statusOf (store (runAnalysis nts fetch params w)) = Succeeded
      \/ statusOf (store (runAnalysis nts fetch params w)) = Failed).
Proof.
  unfold runAnalysis.
  destruct (analyzeWildfire nts fetch params); cbn; auto.
Qed.

(** X11.  A click on the map while no analysis is in flight starts exactly
    one: one request is handed to the client, for the clicked point and the
    panel's two dates and with no buffer, and once it has settled the
    clicked point is selected and the status is Succeeded or Failed.  The
    effect starts nothing while a result is held, and the run handler does
    nothing while no location is selected. *)
Theorem click_starts_one_analysis :
  forall (Number_toString : number -> string)
         (fetch : AnalysisParams -> Result Response)
         (preFire postFire : string) (latlng : LatLng) (w : Session),
    let clicked := {| latitude := lat latlng; longitude := lng latlng |} in
    let w' :=
      autoRunEffect Number_toString fetch preFire postFire (handleClick latlng w) in
    (isLoading (store w) = false ->
     requests w'
     = requests w
       ++ [ {| params_latitude := lat latlng;
               params_longitude := lng latlng;
               params_preFireDate := preFire;
               params_postFireDate := postFire;
               params_bufferKm := None |} ]
     /\ selectedLocation (store w') = Some clicked
     /\ isLoading (store w') = false
     /\ (statusOf (store w') = Succeeded \/ statusOf (store w') = Failed))
    /\ (analysisResults (store w) <> None ->
        autoRunEffect Number_toString fetch preFire postFire w = w)
    /\ (selectedLocation (store w) = None ->
        handleRunAnalysis Number_toString fetch preFire postFire w = w).
Proof.
  intros nts fetch preFire postFire latlng w clicked w'. subst clicked w'.
  split; [|split].
  - intros Hl. unfold handleClick, autoRunEffect, handleRunAnalysis.
    rewrite Hl. cbn. rewrite Hl. cbn.
    rewrite runAnalysis_requests.
    match goal with
    | |- context [runAnalysis nts fetch ?p ?s] =>
        destruct (runAnalysis_settled nts fetch p s) as [H1 [H2 H3]]
    end.
    split; [reflexivity|]. split; [exact H2|]. split; [exact H1 | exact H3].
  - intros Hres. unfold autoRunEffect.
    destruct (selectedLocation (store w)); [|reflexivity].
    destruct (isLoading (store w)); [reflexivity|].
    destruct (analysisResults (store w)); [reflexivity | contradiction].
  - intros Hnone. unfold handleRunAnalysis. rewrite Hnone. reflexivity.
Qed.

Lemma click_starts_one_analysis_witness :
  requests (autoRunEffect noNumber unreachable "2023-06-01" "2023-08-01"
              (handleClick {| lat := 37.7749%Q; lng := (-122.4194)%Q |}
                           initialSession))
  = [exampleParams].
Proof.
  apply (click_starts_one_analysis
           noNumber unreachable "2023-06-01" "2023-08-01"
           {| lat := 37.7749%Q; lng := (-122.4194)%Q |} initialSession).
  reflexivity.
Defined.

(** X12.  When the analysis succeeds, an uninterrupted [runAnalysis] ends
    with status Succeeded from every state: the returned value is the
    result, its polygons are the store's polygons, no error is left from
    before, the selected location is untouched and exactly one request was
    made. *)
Theorem runAnalysis_success_replaces_result :
  forall (Number_toString : number -> string)
         (fetch : AnalysisParams -> Result Response)
         (params : AnalysisParams) (w : Session) (results : AnalysisResults),
    analyzeWildfire Number_toString fetch params = Ok results ->
    let w' := runAnalysis Number_toString fetch params w in
    statusOf (store w') = Succeeded
    /\ analysisResults (store w') = Some results
    /\ burnSeverityPolygons (store w') = results_burnSeverityPolygons results
    /\ error (store w') = None
    /\ isLoading (store w') = false
    /\ selectedLocation (store w') = selectedLocation (store w)
    /\ visibleLayers (store w') = visibleLayers (store w)
    /\ requests w' = requests w ++ [params].
Proof.
  intros nts fetch params w results Hok w'. subst w'.
  unfold runAnalysis. rewrite Hok. repeat split.
Qed.

Lemma runAnalysis_success_replaces_result_witness :
  let w' :=
    runAnalysis noNumber (fun _ => Ok (OkResponse (Ok mockAnalysisResults)))
                exampleParams runningSession in
  statusOf (store w') = Succeeded
  /\ analysisResults (store w') = Some mockAnalysisResults.
Proof.
  intros w'.
  destruct (runAnalysis_success_replaces_result
              noNumber (fun _ => Ok (OkResponse (Ok mockAnalysisResults)))
              exampleParams runningSession mockAnalysisResults eq_refl)
    as [Hstatus [Hresult _]].
  split; [exact Hstatus | exact Hresult].
Defined.

(** X13.  Nothing ties a response to the selection it was requested for.
    If a location is selected between the start of an analysis and its
    response, the status stays Running in between, and the response is then
    stored all the same: a success becomes the result shown for the new
    selection, a failure its error. *)
Theorem late_response_is_applied :
  forall (w : Session) (params : AnalysisParams) (location : Location)
         (results : AnalysisResults) (failure : Thrown),
    let between := setSelectedLocation location (runAnalysis_begin params w) in
    statusOf (store between) = Running
    /\ analysisResults (store between) = None
    /\ selectedLocation (store (runAnalysis_settle (Ok results) between))
       = Some location
    /\ analysisResults (store (runAnalysis_settle (Ok results) between))
       = Some results
    /\ burnSeverityPolygons (store (runAnalysis_settle (Ok results) between))
       = results_burnSeverityPolygons results
    /\ statusOf (store (runAnalysis_settle (Ok results) between)) = Succeeded
    /\ selectedLocation (store (runAnalysis_settle (Throw failure) between))
       = Some location
    /\ error (store (runAnalysis_settle (Throw failure) between))
       = Some (messageOf failure)
    /\ statusOf (store (runAnalysis_settle (Throw failure) between)) = Failed.
Proof.
  intros w params location results failure between. subst between.
  repeat split.
Qed.

(** X14.  Toggling the layer flips its visibility and nothing else, and
    toggling twice gives the session back. *)
Theorem toggleLayerVisibility_involution :
  forall (w : Session),
    toggleLayerVisibility (toggleLayerVisibility w) = w
    /\ burnSeverity (visibleLayers (store (toggleLayerVisibility w)))
       = negb (burnSeverity (visibleLayers (store w)))
    /\ statusOf (store (toggleLayerVisibility w)) = statusOf (store w)
    /\ selectedLocation (store (toggleLayerVisibility w))
       = selectedLocation (store w)
    /\ analysisResults (store (toggleLayerVisibility w))
       = analysisResults (store w)
    /\ burnSeverityPolygons (store (toggleLayerVisibility w))
       = burnSeverityPolygons (store w)
    /\ error (store (toggleLayerVisibility w)) = error (store w)
    /\ requests (toggleLayerVisibility w) = requests w.
Proof.
  intros [[sel res polys loading err [visible]] reqs].
  destruct visible; repeat split.
Qed.

(** X15.  The last selection wins, clearing is idempotent, and clearing
    adds nothing to a selection: selecting after selecting or clearing is
    the later selection alone, and clearing after selecting is that
    selection alone.  Toggling the layer commutes with both. *)
Theorem selection_and_clearing_compose :
  forall (w : Session) (first second : Location),
    setSelectedLocation second (setSelectedLocation first w)
    = setSelectedLocation second w
    /\ clearAnalysis (clearAnalysis w) = clearAnalysis w
    /\ clearAnalysis (setSelectedLocation first w) = setSelectedLocation first w
    /\ setSelectedLocation first (clearAnalysis w) = setSelectedLocation first w
    /\ toggleLayerVisibility (setSelectedLocation first w)
       = setSelectedLocation first (toggleLayerVisibility w)
    /\ toggleLayerVisibility (clearAnalysis w)
       = clearAnalysis (toggleLayerVisibility w).
Proof.
  intros w first second. repeat split.
Qed.

Lemma perform_keeps_relations getMock (w : Session) (a : Action) :
  polygonsFollowResults (store w) /\ noErrorWhileLoading (store w) ->
  polygonsFollowResults (store (perform getMock w a))
  /\ noErrorWhileLoading (store (perform getMock w a)).
Proof.
  unfold polygonsFollowResults, noErrorWhileLoading.
  intros [Hpoly Herr].
  destruct a as [location | | | params | [results | failure] | preFire postFire];
    cbn.
  - split; [reflexivity | reflexivity].
  - split; [exact Hpoly | exact Herr].
  - split; [reflexivity | reflexivity].
  - split; [exact Hpoly | reflexivity].
  - split; [reflexivity | discriminate].
  - split; [exact Hpoly | discriminate].
  - unfold handleUseMockData.
    destruct (selectedLocation (store w)); cbn.
    + split; [reflexivity | discriminate].
    + split; [exact Hpoly | exact Herr].
Qed.

(** X16.  Whatever sequence of selections, toggles, clears, analysis starts,
    analysis responses (in any order, of either kind) and mock-data uses is
    applied to the initial session, the store's polygons are those of the
    result it holds (none when it holds none), and no error is held while
    the loading flag is up. *)
Theorem store_relations_always_hold :
  forall (getMockAnalysisResults : AnalysisParams -> AnalysisResults)
         (actions : list Action),
    polygonsFollowResults
      (store (performAll getMockAnalysisResults actions initialSession))
    /\ noErrorWhileLoading
         (store (performAll getMockAnalysisResults actions initialSession)).
Proof.
  intros getMock actions. unfold performAll.
  assert (polygonsFollowResults (store initialSession)
          /\ noErrorWhileLoading (store initialSession)) as Hinit.
  { split; [reflexivity | discriminate]. }
  revert Hinit. generalize initialSession as w.
  induction actions as [|a actions IH]; intros w Hw; cbn.
  - exact Hw.
  - apply IH. apply perform_keeps_relations. exact Hw.
Qed.

(** ** Analysis client *)

(** X17.  The client returns a result exactly when the endpoint answered ok
    with a body that parsed, and then returns that body as it is.  A failed
    [fetch] and an unparsable ok body are rethrown unchanged; every other
    failure is an [Error]. *)
Theorem analyzeWildfire_passes_through :
  forall (Number_toString : number -> string)
         (fetch : AnalysisParams -> Result Response) (params : AnalysisParams),
    (forall results,
        analyzeWildfire Number_toString fetch params = Ok results
        <-> fetch params = Ok (OkResponse (Ok results)))
    /\ (forall failure,
           fetch params = Throw failure ->
           analyzeWildfire Number_toString fetch params = Throw failure)
    /\ (forall failure,
           fetch params = Ok (OkResponse (Throw failure)) ->
           analyzeWildfire Number_toString fetch params = Throw failure)
    /\ (forall failure,
           analyzeWildfire Number_toString fetch params = Throw failure ->
           fetch params = Throw failure
           \/ fetch params = Ok (OkResponse (Throw failure))
           \/ exists message, failure = ErrorObject message).
Proof.
  intros nts fetch params. unfold analyzeWildfire.
  destruct (fetch params) as [[[results | e] | status statusText json text] | e];
    repeat split; try congruence; intros failure H; injection H as H; subst.
  - right. left. reflexivity.
  - right. right. eexists. reflexivity.
  - left. reflexivity.
Qed.

Lemma analyzeWildfire_passes_through_witness :
  analyzeWildfire noNumber unreachable exampleParams
  = Throw (ErrorObject "timeout").
Proof.
  apply (proj1 (proj2 (analyzeWildfire_passes_through
                         noNumber unreachable exampleParams))).
  reflexivity.
Defined.

(** X18.  An error body of the shape the route sends, [{ error: message }]
    with a non-empty message, reaches the user as it is: whatever the
    status line and whatever state the session was in, [runAnalysis] ends
    Failed with exactly that message, the earlier result still held. *)
Theorem route_error_message_reaches_store :
  forall (Number_toString : number -> string)
         (fetch : AnalysisParams -> Result Response)
         (params : AnalysisParams) (w : Session)
         (status : N) (statusText message : string) (text : Result string),
    fetch params
    = Ok (ErrorResponse status statusText (Ok (errorBody message)) text) ->
    message <> "" ->
    let w' := runAnalysis Number_toString fetch params w in
    error (store w') = Some message
    /\ statusOf (store w') = Failed
    /\ analysisResults (store w') = analysisResults (store w)
    /\ burnSeverityPolygons (store w') = burnSeverityPolygons (store w).
Proof.
  intros nts fetch params w status statusText message text Hfetch Hne w'.
  subst w'. unfold runAnalysis, analyzeWildfire. rewrite Hfetch.
  unfold errorMessageOf, errorBody. cbn.
  destruct (String.eqb_spec message ""); [contradiction|].
  cbn. repeat split.
Qed.

Lemma route_error_message_reaches_store_witness :
  error (store (runAnalysis noNumber answers400 exampleParams succeededSession))
  = Some "Missing required parameters".
Proof.
  apply (route_error_message_reaches_store
           noNumber answers400 exampleParams succeededSession
           400%N "Bad Request" "Missing required parameters"
           (Throw (ErrorObject "body stream already read")) eq_refl).
  discriminate.
Defined.

(** ** Analysis route *)

(** X19.  The route on a request built by the client.  Destructuring the
    body gives the four members as sent and [bufferKm] as sent, or 5 when
    the client sent none.  The request is answered 400 "Missing required
    parameters" exactly when its latitude or longitude is 0 or one of its
    dates is empty; otherwise the answer is that of the rest of the handler
    on those fields (500 with the error's message if that throws). *)
Theorem POST_on_client_request :
  forall (analyse : RequestFields -> Result HttpResponse)
         (params : AnalysisParams),
    let fields :=
      {| field_latitude := Some (JNumber (params_latitude params));
         field_longitude := Some (JNumber (params_longitude params));
         field_preFireDate := Some (JString (params_preFireDate params));
         field_postFireDate := Some (JString (params_postFireDate params));
         field_bufferKm :=
           match params_bufferKm params with
           | Some b => JNumber b
           | None => JNumber 5%Q
           end |} in
    destructure (requestBody params) = Ok fields
    /\ POST analyse (Ok (requestBody params))
       = if Qeq_bool (params_latitude params) 0
            || Qeq_bool (params_longitude params) 0
            || String.eqb (params_preFireDate params) ""
            || String.eqb (params_postFireDate params) ""
         then missingParameters
         else match analyse fields with
              | Ok response => response
              | Throw error =>
                  {| http_status := 500%N;
                     http_body := errorBody (messageOf error) |}
              end.
Proof.
  intros analyse [latitude longitude preFire postFire buffer] fields.
  subst fields. cbn [params_latitude params_longitude params_preFireDate
                     params_postFireDate params_bufferKm].
  assert (destructure
            (requestBody
               {| params_latitude := latitude; params_longitude := longitude;
                  params_preFireDate := preFire; params_postFireDate := postFire;
                  params_bufferKm := buffer |})
          = Ok {| field_latitude := Some (JNumber latitude);
                  field_longitude := Some (JNumber longitude);
                  field_preFireDate := Some (JString preFire);
                  field_postFireDate := Some (JString postFire);
                  field_bufferKm :=
                    match buffer with
                    | Some b => JNumber b
                    | None => JNumber 5%Q
                    end |}) as Hd.
  { destruct buffer; reflexivity. }
  split; [exact Hd|].
  unfold POST. cbn [bind]. rewrite Hd. cbn [bind].
  cbn [field_latitude field_longitude field_preFireDate field_postFireDate
       truthy_opt truthy].
  rewrite !Bool.negb_involutive.
  destruct (Qeq_bool latitude 0 || Qeq_bool longitude 0
            || String.eqb preFire "" || String.eqb postFire "");
    reflexivity.
Qed.

Ltac route_leaf :=
  cbn [http_status http_body];
  repeat match goal with
         | |- _ /\ _ => split
         | |- _ -> _ => intro
         end;
  try discriminate; try contradiction; try congruence;
  try (right; right; reflexivity);
  try (right; left; reflexivity);
  try (left; reflexivity);
  try (eexists; reflexivity).

(** X20.  Every answer of the route is a 200, a 400 or a 500, and every
    answer that is not a 200 has a body of the shape [{ error: message }].
    A 200 is given only when the body destructured with all four parameters
    truthy, the script was there, the command returned normally, the
    results file was there afterwards, was read and parsed, and the image
    step returned; its body is what the image step returned. *)
Theorem handlePOST_answers :
  forall (Number_toString : number -> string) (host : Host)
         (requestJson : Result Json),
    let response := handlePOST Number_toString host requestJson in
    (http_status response = 200%N
     \/ http_status response = 400%N
     \/ http_status response = 500%N)
    /\ (http_status response <> 200%N ->
        exists message, http_body response = errorBody message)
    /\ (http_status response = 200%N ->
        exists body fields resultsData results,
          requestJson = Ok body
          /\ destructure body = Ok fields
          /\ truthy_opt (field_latitude fields) = true
          /\ truthy_opt (field_longitude fields) = true
          /\ truthy_opt (field_preFireDate fields) = true
          /\ truthy_opt (field_postFireDate fields) = true
          /\ existsSync host (scriptPath host) = true
          /\ execAsync host (command Number_toString host fields) = Ok tt
          /\ existsSync_afterwards host (resultsPath host) = true
          /\ readFileSync host (resultsPath host) = Ok resultsData
          /\ JSON_parse host resultsData = Ok results
          /\ publishImages host results = Ok (http_body response)).
Proof.
  intros nts host requestJson response. subst response.
  unfold handlePOST, POST.
  destruct requestJson as [body | e]; cbn [bind]; [|route_leaf].
  destruct (destructure body) as [fields | e] eqn:Hd; cbn [bind]; [|route_leaf].
  destruct (truthy_opt (field_latitude fields)) eqn:H1; cbn [negb orb];
    [|route_leaf].
  destruct (truthy_opt (field_longitude fields)) eqn:H2; cbn [negb orb];
    [|route_leaf].
  destruct (truthy_opt (field_preFireDate fields)) eqn:H3; cbn [negb orb];
    [|route_leaf].
  destruct (truthy_opt (field_postFireDate fields)) eqn:H4; cbn [negb orb];
    [|route_leaf].
  unfold runScript.
  destruct (existsSync host (scriptPath host)) eqn:Hs; cbn [negb]; [|route_leaf].
  destruct (execAsync host (command nts host fields)) as [[] | e] eqn:He;
    cbn [bind]; [|route_leaf].
  destruct (existsSync_afterwards host (resultsPath host)) eqn:Hr; cbn [negb];
    [|route_leaf].
  destruct (readFileSync host (resultsPath host)) as [resultsData | e] eqn:Hf;
    cbn [bind]; [|route_leaf].
  destruct (JSON_parse host resultsData) as [results | e] eqn:Hp;
    cbn [bind]; [|route_leaf].
  destruct (publishImages host results) as [published | e] eqn:Hi;
    cbn [bind]; [|route_leaf].
  cbn [http_status http_body].
  split; [left; reflexivity|]. split; [intros H; contradiction|].
  intros _. exists body, fields, resultsData, results.
  repeat split; assumption.
Qed.

Lemma runScript_status nts host fields :
  exists response,
    runScript nts host fields = Ok response
    /\ (http_status response = 200%N \/ http_status response = 500%N).
Proof.
  unfold runScript.
  destruct (existsSync host (scriptPath host)); cbn [negb].
  2:{ eexists. split; [reflexivity | right; reflexivity]. }
  destruct (execAsync host (command nts host fields)) as [[] | e]; cbn [bind].
  2:{ eexists. split; [reflexivity | right; reflexivity]. }
  destruct (existsSync_afterwards host (resultsPath host)); cbn [negb].
  2:{ eexists. split; [reflexivity | right; reflexivity]. }
  destruct (readFileSync host (resultsPath host)) as [resultsData | e]; cbn [bind].
  2:{ eexists. split; [reflexivity | right; reflexivity]. }
  destruct (JSON_parse host resultsData) as [results | e]; cbn [bind].
  2:{ eexists. split; [reflexivity | right; reflexivity]. }
  destruct (publishImages host results) as [published | e]; cbn [bind].
  2:{ eexists. split; [reflexivity | right; reflexivity]. }
  eexists. split; [reflexivity | left; reflexivity].
Qed.

(** X21.  What the route decides before it touches the host.  A 400 is the
    "Missing required parameters" answer and is given on every host alike.
    When the script is missing the answer is the same on every host with
    the same working directory, [path.join] and [fs.existsSync]: running
    the command, the results file and the image step play no part. *)
Theorem rejection_ignores_the_host :
  forall (Number_toString : number -> string) (host : Host)
         (requestJson : Result Json),
    (http_status (handlePOST Number_toString host requestJson) = 400%N ->
     handlePOST Number_toString host requestJson = missingParameters
     /\ forall host',
          handlePOST Number_toString host' requestJson = missingParameters)
    /\ (existsSync host (scriptPath host) = false ->
        forall host',
          cwd host' = cwd host ->
          path_join host' = path_join host ->
          existsSync host' = existsSync host ->
          handlePOST Number_toString host' requestJson
          = handlePOST Number_toString host requestJson).
Proof.
  intros nts host requestJson. unfold handlePOST, POST. split.
  - destruct requestJson as [body | e]; cbn [bind];
      [|cbn; intros H; discriminate H].
    destruct (destructure body) as [fields | e]; cbn [bind];
      [|cbn; intros H; discriminate H].
    destruct (negb (truthy_opt (field_latitude fields))
              || negb (truthy_opt (field_longitude fields))
              || negb (truthy_opt (field_preFireDate fields))
              || negb (truthy_opt (field_postFireDate fields))).
    + intros _. split; [reflexivity | intros host'; reflexivity].
    + destruct (runScript_status nts host fields) as [response [-> Hst]].
      intros H. destruct Hst as [Hst | Hst]; rewrite Hst in H; discriminate H.
  - intros Hmissing host' Hcwd Hjoin Hexists.
    assert (scriptPath host' = scriptPath host) as Hpath.
    { unfold scriptPath, scriptsDir. rewrite Hcwd, Hjoin. reflexivity. }
    destruct requestJson as [body | e]; cbn [bind]; [|reflexivity].
    destruct (destructure body) as [fields | e]; cbn [bind]; [|reflexivity].
    destruct (negb (truthy_opt (field_latitude fields))
              || negb (truthy_opt (field_longitude fields))
              || negb (truthy_opt (field_preFireDate fields))
              || negb (truthy_opt (field_postFireDate fields)));
      [reflexivity|].
    unfold runScript. rewrite Hexists, Hpath, Hmissing. reflexivity.
Qed.

Lemma rejection_ignores_the_host_witness :
  handlePOST noNumber bareHost (Ok bodyLatitudeZero) = missingParameters.
Proof.
  apply (proj1 (rejection_ignores_the_host noNumber bareHost
                  (Ok bodyLatitudeZero))).
  reflexivity.
Defined.

(** X22.  Whatever the host answers, the value stored for an image entry
    starts with "/": a path that already does is kept, any other becomes
    "/analysis_images/<file name>" or a "/placeholder.svg..." locator.  So
    publishing a published value again leaves it as it is. *)
Theorem publishImage_is_relative :
  forall (host : Host) (basename : string -> string)
         (copyFileSync : string -> string -> Result unit)
         (key imagePath : string),
    String.prefix "/" (publishImage host basename copyFileSync key imagePath)
    = true
    /\ (String.prefix "/" imagePath = true ->
        publishImage host basename copyFileSync key imagePath = imagePath)
    /\ forall host' basename' copyFileSync' key',
         publishImage host' basename' copyFileSync' key'
           (publishImage host basename copyFileSync key imagePath)
         = publishImage host basename copyFileSync key imagePath.
Proof.
  intros host basename copyFileSync key imagePath.
  assert (String.prefix "/"
            (publishImage host basename copyFileSync key imagePath) = true)
    as Hrel.
  { unfold publishImage.
    destruct (String.prefix "/" imagePath) eqn:Hp; [exact Hp|].
    destruct (existsSync_afterwards host imagePath); [|reflexivity].
    destruct (copyFileSync imagePath _); reflexivity. }
  split; [exact Hrel|]. split.
  - intros Hp. unfold publishImage. rewrite Hp. reflexivity.
  - intros host' basename' copyFileSync' key'.
    unfold publishImage at 1. rewrite Hrel. reflexivity.
Qed.

Lemma publishImage_is_relative_witness :
  publishImage bareHost (fun p => p) (fun _ _ => Ok tt) "dNBR" "/analysis_images/dnbr.png"
  = "/analysis_images/dnbr.png".
Proof.
  apply (publishImage_is_relative bareHost (fun p => p) (fun _ _ => Ok tt)).
  reflexivity.
Defined.


